(** * setup.py: the setup runner of the Facebook Pages dbt models

    A shallow embedding of [setup.py] and the properties of its six-step
    run: the success counter, best-effort continuation, the exit status,
    the database-file lookup in [.dbt/profiles.yml], the connection test
    and the closing summary. *)

From Stdlib Require Import List ZArith NArith Lia Bool String Ascii Arith.
From Stdlib Require Import DecimalString.
From Equations Require Import Equations.
Import ListNotations.

(** ** Python strings

    A Python [str] is a sequence of Unicode code points. *)

Module PyStr.

Definition pystr := list N.

(** Literals are written as in the source and decoded from UTF-8. *)
Fixpoint utf8_decode (fuel : nat) (bs : list N) : pystr :=
  match fuel with
  | O => []
  | S fuel' =>
      match bs with
      | [] => []
      | b0 :: r0 =>
          if (b0 <? 128)%N then b0 :: utf8_decode fuel' r0
          else if (b0 <? 224)%N then
            match r0 with
            | b1 :: r1 =>
                ((b0 mod 32) * 64 + b1 mod 64)%N :: utf8_decode fuel' r1
            | _ => []
            end
          else if (b0 <? 240)%N then
            match r0 with
            | b1 :: b2 :: r2 =>
                ((b0 mod 16) * 4096 + (b1 mod 64) * 64 + b2 mod 64)%N
                  :: utf8_decode fuel' r2
            | _ => []
            end
          else
            match r0 with
            | b1 :: b2 :: b3 :: r3 =>
                ((b0 mod 8) * 262144 + (b1 mod 64) * 4096
                 + (b2 mod 64) * 64 + b3 mod 64)%N
                  :: utf8_decode fuel' r3
            | _ => []
            end
      end
  end.

Definition u (s : string) : pystr :=
  let bs := map N_of_ascii (list_ascii_of_string s) in
  utf8_decode (List.length bs) bs.

(** [str(n)] for an [int]. *)
Definition str_of_int (n : Z) : pystr :=
  u (NilZero.string_of_int (Z.to_int n)).

Fixpoint eqb (a b : pystr) : bool :=
  match a, b with
  | [], [] => true
  | x :: a', y :: b' => (x =? y)%N && eqb a' b'
  | _, _ => false
  end.

(** [s.startswith(p)] *)
Fixpoint startswith (p s : pystr) : bool :=
  match p, s with
  | [], _ => true
  | x :: p', y :: s' => (x =? y)%N && startswith p' s'
  | _ :: _, [] => false
  end.

(** [s.find(sub)]: the lowest index at which [sub] occurs in [s]. *)
Fixpoint find (sub s : pystr) : option nat :=
  if startswith sub s then Some O
  else match s with
       | [] => None
       | _ :: s' => option_map S (find sub s')
       end.

(** [sub in s] *)
Definition contains (sub s : pystr) : bool :=
  match find sub s with Some _ => true | None => false end.

Lemma startswith_length p s :
  startswith p s = true -> List.length p <= List.length s.
Proof.
  revert s. induction p as [|x p IH]; intros [|y s]; simpl;
    try lia; try discriminate.
  intros H. apply andb_prop in H as [_ H]. apply IH in H. lia.
Qed.

Lemma find_bound sub s i :
  find sub s = Some i -> i + List.length sub <= List.length s.
Proof.
  revert i. induction s as [|c s IH]; intros i.
  - simpl. destruct (startswith sub []) eqn:E; [|discriminate].
    intros [= <-]. apply startswith_length in E. simpl in *. lia.
  - cbn [find]. destruct (startswith sub (c :: s)) eqn:E.
    + intros [= <-]. apply startswith_length in E. simpl in *. lia.
    + destruct (find sub s) as [j|]; simpl; [|discriminate].
      intros [= <-]. specialize (IH j eq_refl). lia.
Qed.

Definition inspect {A} (a : A) : {b : A | a = b} := exist _ a eq_refl.

(** [s.split(sep)] for a non-empty separator: cut at each occurrence of
    [sep], searching on from the end of the previous one. *)
Equations? split_nonempty (c : N) (sep' : pystr) (s : pystr) : list pystr
  by wf (List.length s) lt :=
  split_nonempty c sep' s with inspect (find (c :: sep') s) => {
    | exist _ None _ := [s];
    | exist _ (Some i) Hf :=
        firstn i s :: split_nonempty c sep' (skipn (i + List.length (c :: sep')) s) }.
Proof.
  apply find_bound in Hf. simpl in *. rewrite length_skipn. lia.
Qed.

(** [s.split(sep)]; an empty separator raises [ValueError], here [None]. *)
Definition split (sep s : pystr) : option (list pystr) :=
  match sep with
  | [] => None
  | c :: sep' => Some (split_nonempty c sep' s)
  end.

(** The characters [str.strip()] removes: [str.isspace] code points. *)
Definition isspace (c : N) : bool :=
  ((9 <=? c) && (c <=? 13) || (28 <=? c) && (c <=? 32)
   || (c =? 133) || (c =? 160) || (c =? 5760)
   || (8192 <=? c) && (c <=? 8202)
   || (c =? 8232) || (c =? 8233) || (c =? 8239) || (c =? 8287)
   || (c =? 12288))%N.

Fixpoint lstrip_by (f : N -> bool) (s : pystr) : pystr :=
  match s with
  | c :: s' => if f c then lstrip_by f s' else s
  | [] => []
  end.

Definition rstrip_by (f : N -> bool) (s : pystr) : pystr :=
  List.rev (lstrip_by f (List.rev s)).

Definition strip_by (f : N -> bool) (s : pystr) : pystr :=
  rstrip_by f (lstrip_by f s).

(** [s.strip()] *)
Definition strip (s : pystr) : pystr := strip_by isspace s.

(** [s.strip(chars)] *)
Definition strip_chars (chars s : pystr) : pystr :=
  strip_by (fun c => existsb (N.eqb c) chars) s.

End PyStr.
Import PyStr.

(** Literals stay folded in proofs. *)
Arguments u : simpl never.
Arguments str_of_int : simpl never.
#[global] Opaque u str_of_int.


(** ** Exceptions, effects and the world the script runs in *)

(** The exception classes the script's calls can raise.  Every one is an
    instance of [Exception]: interrupts and interpreter exit
    ([KeyboardInterrupt], [SystemExit]) are outside the model. *)
Inductive exn_class :=
| Exception | OSError | FileNotFoundError | PermissionError
| ValueError | UnicodeDecodeError | IndexError.

Definition exn_class_eqb (a b : exn_class) : bool :=
  match a, b with
  | Exception, Exception | OSError, OSError
  | FileNotFoundError, FileNotFoundError
  | PermissionError, PermissionError | ValueError, ValueError
  | UnicodeDecodeError, UnicodeDecodeError | IndexError, IndexError => true
  | _, _ => false
  end.

(** [issubclass(a, b)] *)
Definition issubclass (a b : exn_class) : bool :=
  match b with
  | Exception => true
  | OSError =>
      match a with
      | OSError | FileNotFoundError | PermissionError => true
      | _ => false
      end
  | ValueError =>
      match a with ValueError | UnicodeDecodeError => true | _ => false end
  | _ => exn_class_eqb a b
  end.

(** An exception instance: its class and [str(e)]. *)
Record exn := { exn_cls : exn_class; exn_str : pystr }.

Inductive result (A : Type) :=
| Return (a : A)
| Raise (e : exn).
Arguments Return {A} a.
Arguments Raise {A} e.

(** The first argument of [subprocess.run]: a shell line ([shell=True]) or
    an argument vector. *)
Inductive command :=
| Shell (line : pystr)
| Argv (args : list pystr).

(** [subprocess.CompletedProcess] with [capture_output=True, text=True]. *)
Record CompletedProcess :=
  { returncode : Z; stdout : pystr; stderr : pystr }.

(** [sys.version_info] *)
Record version_info :=
  { major : Z; minor : Z; micro : Z; releaselevel : pystr; serial : Z }.

(** What the script does to the outside, in order. *)
Inductive event :=
| Print (s : pystr)                 (* print(s) *)
| SubprocessRun (c : command)       (* subprocess.run(c, ...) *)
| PathExists (p : pystr)            (* Path(p).exists() *)
| OsPathExists (p : pystr)          (* os.path.exists(p) *)
| OpenRead (p : pystr).             (* open(p, 'r') and f.read() *)

(** The outside world: the answer of each call the script makes.  No call
    is made twice in a run, so a fixed answer per call loses nothing.
    [subprocess.run], reading a file and [Path.exists] return or raise
    ([Path.exists] lets through every [OSError] that does not mean the file
    is missing, such as [PermissionError]); [os.path.exists] answers [True]
    or [False].  Standard output is taken to accept every line: [print]
    always succeeds. *)
Record env :=
  { sys_version_info : version_info;
    run_process : command -> result CompletedProcess;
    path_exists : pystr -> result bool;
    os_path_exists : pystr -> bool;
    read_text : pystr -> result pystr }.

(** Computations: read the world, emit events, return or raise. *)
Definition M (A : Type) := env -> list event * result A.

Definition ret {A} (a : A) : M A := fun _ => ([], Return a).

Definition bind {A B} (m : M A) (f : A -> M B) : M B :=
  fun w =>
    match m w with
    | (t, Return a) => let (t', r) := f a w in (t ++ t', r)
    | (t, Raise e) => (t, Raise e)
    end.

Definition raise {A} (c : exn_class) (msg : pystr) : M A :=
  fun _ => ([], Raise {| exn_cls := c; exn_str := msg |}).

Declare Scope py_scope.
Delimit Scope py_scope with py.
Notation "x <- m ;; k" := (bind m (fun x => k))
  (at level 61, m at next level, right associativity) : py_scope.
Notation "m ;; k" := (bind m (fun _ => k))
  (at level 61, right associativity) : py_scope.
Local Open Scope py_scope.

(** [except C as e: h e] clauses, tried in order. *)
Fixpoint find_handler {A} (e : exn) (hs : list (exn_class * (exn -> M A)))
  : option (M A) :=
  match hs with
  | [] => None
  | (c, h) :: hs' =>
      if issubclass (exn_cls e) c then Some (h e) else find_handler e hs'
  end.

(** [try: body  except ...]; an exception no clause matches goes on up. *)
Definition try_except {A} (body : M A) (hs : list (exn_class * (exn -> M A)))
  : M A :=
  fun w =>
    match body w with
    | (t, Return a) => (t, Return a)
    | (t, Raise e) =>
        match find_handler e hs with
        | Some h => let (t', r) := h w in (t ++ t', r)
        | None => (t, Raise e)
        end
    end.

Definition print (s : pystr) : M unit := fun _ => ([Print s], Return tt).

Definition subprocess_run (c : command) : M CompletedProcess :=
  fun w => ([SubprocessRun c], run_process w c).

Definition Path_exists (p : pystr) : M bool :=
  fun w => ([PathExists p], path_exists w p).

Definition os_path_exists_ (p : pystr) : M bool :=
  fun w => ([OsPathExists p], Return (os_path_exists w p)).

Definition open_read (p : pystr) : M pystr :=
  fun w => ([OpenRead p], read_text w p).

Definition get_version_info : M version_info :=
  fun w => ([], Return (sys_version_info w)).

(** [s.split(sep)] as a computation. *)
Definition str_split (sep s : pystr) : M (list pystr) :=
  match split sep s with
  | Some parts => ret parts
  | None => raise ValueError (u "empty separator")
  end.

(** [l[i]] *)
Definition getitem (l : list pystr) (i : nat) : M pystr :=
  match nth_error l i with
  | Some x => ret x
  | None => raise IndexError (u "list index out of range")
  end.

(** Comparison of tuples of [int]: the first differing position decides,
    and of two tuples that agree on the shorter one the longer is the
    greater. *)
Fixpoint tuple_ge (a b : list Z) : bool :=
  match a, b with
  | _, [] => true
  | [], _ :: _ => false
  | x :: a', y :: b' => if (x =? y)%Z then tuple_ge a' b' else (y <? x)%Z
  end.

(** The leading [int] fields of [sys.version_info]; a comparison with a
    pair never reaches [releaselevel]. *)
Definition version_tuple (v : version_info) : list Z :=
  [major v; minor v; micro v].

Definition nl : pystr := [10%N].
Definition quote_chars : pystr := [39%N; 34%N].   (* the two quote marks *)

(** ** The script *)

(** [print_header(title)] *)
Definition print_header (title : pystr) : M unit :=
  print (nl ++ repeat 61%N 60) ;;
  print (u "  " ++ title) ;;
  print (repeat 61%N 60).

(** [run_command(command, description)] *)
Definition run_command (command description : pystr) : M bool :=
  print (nl ++ u "🔄 " ++ description ++ u "...") ;;
  try_except
    (result <- subprocess_run (Shell command) ;;
     if (returncode result =? 0)%Z then
       print (u "✅ " ++ description ++ u " completed successfully") ;;
       ret true
     else
       print (u "❌ " ++ description ++ u " failed:") ;;
       print (stderr result) ;;
       ret false)
    [(Exception, fun e =>
        print (u "❌ Error during " ++ description ++ u ": " ++ exn_str e) ;;
        ret false)].

(** The loop [for line in content.split('\n')] of [check_database_file];
    the value is [db_file] when the loop ends. *)
Fixpoint for_line_in (lines : list pystr) (db_file : pystr) : M pystr :=
  match lines with
  | [] => ret db_file
  | line :: rest =>
      if contains (u "path:") line && contains (u ".duckdb") line then
        parts <- str_split (u "path:") line ;;
        part <- getitem parts 1 ;;
        let db_path := strip_chars quote_chars (strip part) in
        ret db_path                                   (* break *)
      else for_line_in rest db_file
  end.

(** [check_database_file()] *)
Definition check_database_file : M bool :=
  let db_file := u "facebook_pages_pipeline.duckdb" in
  let profiles_file := u ".dbt/profiles.yml" in
  found <- Path_exists profiles_file ;;
  db_file <-
    (if found : bool then
       try_except
         (content <- open_read profiles_file ;;
          if contains (u "path:") content then
            lines <- str_split nl content ;;
            for_line_in lines db_file
          else ret db_file)
         [(Exception, fun _ => ret db_file)]               (* pass *)
     else ret db_file) ;;
  there <- os_path_exists_ db_file ;;
  if there : bool then
    print (u "✅ Database file found: " ++ db_file) ;;
    ret true
  else
    print (u "⚠️  Database file not found: " ++ db_file) ;;
    print (u "   Make sure to run the DLT extraction pipeline first!") ;;
    print (u "   See: https://github.com/your-org/dlt-facebook-pages") ;;
    ret false.

(** [check_dbt_connection()] *)
Definition check_dbt_connection : M bool :=
  print (nl ++ u "🔄 Testing dbt database connection...") ;;
  try_except
    (result <- subprocess_run (Argv [u "dbt"; u "debug"]) ;;
     if contains (u "All checks passed!") (stdout result) then
       print (u "✅ dbt connection test passed") ;;
       ret true
     else
       print (u "❌ dbt connection test failed:") ;;
       print (stdout result) ;;
       print (stderr result) ;;
       ret false)
    [(FileNotFoundError, fun _ =>
        print (u "❌ dbt command not found. Please install dbt-core and dbt-duckdb") ;;
        ret false);
     (Exception, fun e =>
        print (u "❌ Error testing dbt connection: " ++ exn_str e) ;;
        ret false)].

(** [main()] *)
Definition main : M unit :=
  print_header (u "Facebook Pages dbt Setup") ;;
  print (u "🚀 Setting up Facebook Pages dbt transformation models...") ;;
  print (u "   This will install dependencies and validate your setup.") ;;
  let success_count := 0%Z in
  let total_steps := 6%Z in
  (* Step 1: Check Python version *)
  print_header (u "Step 1: Environment Check") ;;
  python_version <- get_version_info ;;
  print (u "Python version: " ++ str_of_int (major python_version) ++ u "."
         ++ str_of_int (minor python_version) ++ u "."
         ++ str_of_int (micro python_version)) ;;
  success_count <-
    (if tuple_ge (version_tuple python_version) [3; 8]%Z then
       print (u "✅ Python version is compatible") ;;
       ret (success_count + 1)%Z
     else
       print (u "❌ Python 3.8+ required") ;;
       ret success_count) ;;
  (* Step 2: Install Python dependencies *)
  print_header (u "Step 2: Install Dependencies") ;;
  ok <- run_command (u "pip install -r requirements.txt")
                    (u "Installing Python dependencies") ;;
  let success_count := if ok : bool then (success_count + 1)%Z else success_count in
  (* Step 3: Install dbt dependencies *)
  print_header (u "Step 3: Install dbt Dependencies") ;;
  ok <- run_command (u "dbt deps") (u "Installing dbt package dependencies") ;;
  let success_count := if ok : bool then (success_count + 1)%Z else success_count in
  (* Step 4: Check for database file *)
  print_header (u "Step 4: Database Check") ;;
  ok <- check_database_file ;;
  let success_count := if ok : bool then (success_count + 1)%Z else success_count in
  (* Step 5: Test dbt connection *)
  print_header (u "Step 5: Database Connection Test") ;;
  ok <- check_dbt_connection ;;
  let success_count := if ok : bool then (success_count + 1)%Z else success_count in
  (* Step 6: Compile models *)
  print_header (u "Step 6: Compile Models") ;;
  ok <- run_command (u "dbt compile") (u "Compiling dbt models") ;;
  let success_count := if ok : bool then (success_count + 1)%Z else success_count in
  (* Final status *)
  print_header (u "Setup Complete") ;;
  print (u "✅ " ++ str_of_int success_count ++ u "/" ++ str_of_int total_steps
         ++ u " steps completed successfully") ;;
  (if (success_count =? total_steps)%Z then
     print (nl ++ u "🎉 Setup completed successfully!") ;;
     print (nl ++ u "📋 Next steps:") ;;
     print (u "   1. Run 'make pipeline' to execute all models") ;;
     print (u "   2. Run 'make test' to validate data quality") ;;
     print (u "   3. Run 'make docs' to view documentation") ;;
     print (nl ++ u "💡 Useful commands:") ;;
     print (u "   • make run          - Run all models") ;;
     print (u "   • make test         - Run data quality tests") ;;
     print (u "   • make docs         - Generate documentation") ;;
     print (u "   • make help         - See all available commands")
   else
     print (nl ++ u "⚠️  Setup completed with "
            ++ str_of_int (total_steps - success_count) ++ u " warnings/errors") ;;
     print (u "   Please review the output above and resolve any issues") ;;
     if (success_count <? 4)%Z then
       print (nl ++ u "🚨 Critical issues detected:") ;;
       print (u "   • Make sure you have Python 3.8+ installed") ;;
       print (u "   • Install required dependencies") ;;
       print (u "   • Run the DLT extraction pipeline first") ;;
       print (u "   • Check your database connection settings")
     else ret tt) ;;
  print (nl ++ u "📚 Documentation: README.md") ;;
  print (u "🔗 DLT Pipeline: https://github.com/your-org/dlt-facebook-pages").

(** Running the file as a script: [main()] under
    [if __name__ == "__main__"].  The interpreter exits with status 0 when
    [main] returns and with status 1 on an uncaught exception. *)
Definition exit_status (r : result unit) : Z :=
  match r with
  | Return _ => 0
  | Raise _ => 1
  end.

Definition script (w : env) : list event * Z :=
  let (t, r) := main w in (t, exit_status r).

(** ** Observing a run *)

Definition output {A} (m : M A) (w : env) : list event := fst (m w).
Definition outcome {A} (m : M A) (w : env) : result A := snd (m w).

(** A check succeeded: it returned [True]. *)
Definition succeeded (m : M bool) (w : env) : bool :=
  match outcome m w with
  | Return b => b
  | Raise _ => false
  end.

(** The commands handed to [subprocess.run], in order. *)
Definition commands_run (t : list event) : list command :=
  flat_map (fun e => match e with SubprocessRun c => [c] | _ => [] end) t.

(** The paths handed to [os.path.exists], in order. *)
Definition db_paths_checked (t : list event) : list pystr :=
  flat_map (fun e => match e with OsPathExists p => [p] | _ => [] end) t.

(** The lines printed, in order. *)
Definition printed (t : list event) : list pystr :=
  flat_map (fun e => match e with Print s => [s] | _ => [] end) t.

(** The six steps: each one's banner, and the check behind steps 2 to 6.
    Step 1 is the comparison [sys.version_info >= (3, 8)]. *)
Definition step_titles : list pystr :=
  [u "Step 1: Environment Check"; u "Step 2: Install Dependencies";
   u "Step 3: Install dbt Dependencies"; u "Step 4: Database Check";
   u "Step 5: Database Connection Test"; u "Step 6: Compile Models"].

Definition pip_install : M bool :=
  run_command (u "pip install -r requirements.txt")
              (u "Installing Python dependencies").
Definition dbt_deps : M bool :=
  run_command (u "dbt deps") (u "Installing dbt package dependencies").
Definition dbt_compile : M bool :=
  run_command (u "dbt compile") (u "Compiling dbt models").

Definition version_ok (w : env) : bool :=
  tuple_ge (version_tuple (sys_version_info w)) [3; 8]%Z.

Definition step_outcomes (w : env) : list bool :=
  [version_ok w; succeeded pip_install w; succeeded dbt_deps w;
   succeeded check_database_file w; succeeded check_dbt_connection w;
   succeeded dbt_compile w].

(** One for each success, nothing for a failure. *)
Fixpoint count_successes (l : list bool) : Z :=
  match l with
  | [] => 0
  | b :: l' => (if b then 1 else 0) + count_successes l'
  end.

(** The line [print(f"✅ {success_count}/{total_steps} steps completed successfully")]. *)
Definition summary_line (n : Z) : pystr :=
  u "✅ " ++ str_of_int n ++ u "/" ++ str_of_int 6
    ++ u " steps completed successfully".

(** The three lines [print_header(title)] prints. *)
Definition header (title : pystr) : list event :=
  [Print (nl ++ repeat 61%N 60); Print (u "  " ++ title); Print (repeat 61%N 60)].

(** ** The lookup of the database path, in words

    The markers the scan of [.dbt/profiles.yml] looks for. *)
Definition path_marker : pystr := u "path:".
Definition duckdb_ext : pystr := u ".duckdb".
Definition default_db_file : pystr := u "facebook_pages_pipeline.duckdb".
Definition profiles_file : pystr := u ".dbt/profiles.yml".

(** A line with both the path marker and the database-file extension. *)
Definition is_path_line (line : pystr) : bool :=
  contains path_marker line && contains duckdb_ext line.

(** The substring of [s] after the first [marker]. *)
Definition after_marker (marker s : pystr) : pystr :=
  match find marker s with
  | Some i => skipn (i + List.length marker) s
  | None => []
  end.

(** The substring of [s] before the first [marker], all of [s] when there
    is none. *)
Definition upto_marker (marker s : pystr) : pystr :=
  match find marker s with
  | Some i => firstn i s
  | None => s
  end.

(** Surrounding whitespace, then surrounding quote marks, removed. *)
Definition unquote (s : pystr) : pystr := strip_chars quote_chars (strip s).

(** What the report of step 4 prints for [db_file]. *)
Definition db_report (db_file : pystr) (there : bool) : list event :=
  if there then [Print (u "✅ Database file found: " ++ db_file)]
  else [Print (u "⚠️  Database file not found: " ++ db_file);
        Print (u "   Make sure to run the DLT extraction pipeline first!");
        Print (u "   See: https://github.com/your-org/dlt-facebook-pages")].

(** The path a line of the configuration file gives: the second piece of
    the line split at the marker, unquoted. *)
Definition path_of_line (line : pystr) : pystr :=
  unquote (upto_marker path_marker (after_marker path_marker line)).

(** The database file a readable configuration file names: the path of its
    first path line, the default when it has none. *)
Definition configured_db_file (content : pystr) : pystr :=
  match split nl content with
  | Some lines =>
      match List.find is_path_line lines with
      | Some line => path_of_line line
      | None => default_db_file
      end
  | None => default_db_file
  end.

(** ** The run of [main], piece by piece *)

(** The opening banner. *)
Definition banner : list event :=
  header (u "Facebook Pages dbt Setup") ++
  [Print (u "🚀 Setting up Facebook Pages dbt transformation models...");
   Print (u "   This will install dependencies and validate your setup.")].

(** What step 1 prints. *)
Definition step1_events (w : env) : list event :=
  header (u "Step 1: Environment Check") ++
  [Print (u "Python version: " ++ str_of_int (major (sys_version_info w))
          ++ u "." ++ str_of_int (minor (sys_version_info w))
          ++ u "." ++ str_of_int (micro (sys_version_info w)));
   Print (if version_ok w then u "✅ Python version is compatible"
          else u "❌ Python 3.8+ required")].

(** What step [i] does, for [i] from 1 to 6: its banner, then its check. *)
Definition step_events (i : nat) (w : env) : list event :=
  match i with
  | 1 => step1_events w
  | 2 => header (u "Step 2: Install Dependencies") ++ output pip_install w
  | 3 => header (u "Step 3: Install dbt Dependencies") ++ output dbt_deps w
  | 4 => header (u "Step 4: Database Check") ++ output check_database_file w
  | 5 => header (u "Step 5: Database Connection Test")
           ++ output check_dbt_connection w
  | 6 => header (u "Step 6: Compile Models") ++ output dbt_compile w
  | _ => []
  end.

Definition steps_events (w : env) : list event :=
  flat_map (fun i => step_events i w) [1; 2; 3; 4; 5; 6].

(** The messages of the closing summary. *)
Definition celebration : pystr := nl ++ u "🎉 Setup completed successfully!".
Definition next_steps : list pystr :=
  [nl ++ u "📋 Next steps:";
   u "   1. Run 'make pipeline' to execute all models";
   u "   2. Run 'make test' to validate data quality";
   u "   3. Run 'make docs' to view documentation"].
Definition warning (n : Z) : pystr :=
  nl ++ u "⚠️  Setup completed with " ++ str_of_int (6 - n)
     ++ u " warnings/errors".
Definition root_causes : list pystr :=
  [nl ++ u "🚨 Critical issues detected:";
   u "   • Make sure you have Python 3.8+ installed";
   u "   • Install required dependencies";
   u "   • Run the DLT extraction pipeline first";
   u "   • Check your database connection settings"].

(** Everything printed after the count line, for a count [n]. *)
Definition closing_events (n : Z) : list event :=
  (if (n =? 6)%Z then
     map Print (celebration :: next_steps) ++
     [Print (nl ++ u "💡 Useful commands:");
      Print (u "   • make run          - Run all models");
      Print (u "   • make test         - Run data quality tests");
      Print (u "   • make docs         - Generate documentation");
      Print (u "   • make help         - See all available commands")]
   else
     [Print (warning n);
      Print (u "   Please review the output above and resolve any issues")]
     ++ (if (n <? 4)%Z then map Print root_causes else [])) ++
  [Print (nl ++ u "📚 Documentation: README.md");
   Print (u "🔗 DLT Pipeline: https://github.com/your-org/dlt-facebook-pages")].

(** ** Sample worlds *)

Definition command_eqb (a b : command) : bool :=
  match a, b with
  | Shell x, Shell y => PyStr.eqb x y
  | Argv xs, Argv ys =>
      (List.length xs =? List.length ys)%nat
      && forallb (fun p => PyStr.eqb (fst p) (snd p)) (combine xs ys)
  | _, _ => false
  end.

Definition completed (rc : Z) (out err : pystr) : result CompletedProcess :=
  Return {| returncode := rc; stdout := out; stderr := err |}.

Definition dbt_debug : command := Argv [u "dbt"; u "debug"].

(** A world in which step [i] succeeds exactly when [bi] holds: Python
    3.11 or 3.7, commands that exit with 0 or not, no configuration file,
    the default database file there or not, and a [dbt debug] that prints
    the success phrase or not. *)
Definition world_with_outcomes (b1 b2 b3 b4 b5 b6 : bool) : env :=
  {| sys_version_info :=
       {| major := 3; minor := if b1 then 11 else 7; micro := 4;
          releaselevel := u "final"; serial := 0 |};
     run_process := fun c =>
       if command_eqb c (Shell (u "pip install -r requirements.txt")) then
         completed (if b2 then 0 else 1) [] (u "ERROR: No matching distribution")
       else if command_eqb c (Shell (u "dbt deps")) then
         completed (if b3 then 0 else 2) [] (u "dbt: command not found")
       else if command_eqb c dbt_debug then
         completed 0
           (if b5 then u "Connection test: OK" ++ nl ++ u "All checks passed!"
            else u "1 check failed:") []
       else completed (if b6 then 0 else 1) [] (u "Compilation Error");
     path_exists := fun _ => Return false;
     os_path_exists := fun _ => b4;
     read_text := fun _ =>
       Raise {| exn_cls := FileNotFoundError;
                exn_str := u "No such file or directory" |} |}.

(** A world with a configuration file holding [content]; every command
    exits with 0, the database file is there. *)
Definition world_with_profiles (content : result pystr) : env :=
  {| sys_version_info :=
       {| major := 3; minor := 11; micro := 4;
          releaselevel := u "final"; serial := 0 |};
     run_process := fun c => completed 0 (u "All checks passed!") [];
     path_exists := fun _ => Return true;
     os_path_exists := fun _ => true;
     read_text := fun _ => content |}.

(** A world in which every call that can raise does. *)
Definition world_of_errors : env :=
  {| sys_version_info :=
       {| major := 3; minor := 11; micro := 4;
          releaselevel := u "final"; serial := 0 |};
     run_process := fun c =>
       match c with
       | Shell _ =>
           Raise {| exn_cls := OSError; exn_str := u "Exec format error" |}
       | Argv _ =>
           Raise {| exn_cls := PermissionError; exn_str := u "Permission denied: 'dbt'" |}
       end;
     path_exists := fun _ => Return true;
     os_path_exists := fun _ => true;
     read_text := fun _ =>
       Raise {| exn_cls := PermissionError; exn_str := u "Permission denied" |} |}.

(** A world without the [dbt] executable: the shell reports status 127,
    and running [dbt debug] directly raises [FileNotFoundError]. *)
Definition world_without_dbt : env :=
  {| sys_version_info :=
       {| major := 3; minor := 11; micro := 4;
          releaselevel := u "final"; serial := 0 |};
     run_process := fun c =>
       match c with
       | Shell _ => completed 127 [] (u "/bin/sh: 1: dbt: not found")
       | Argv _ =>
           Raise {| exn_cls := FileNotFoundError;
                    exn_str := u "[Errno 2] No such file or directory: 'dbt'" |}
       end;
     path_exists := fun _ => Return false;
     os_path_exists := fun _ => false;
     read_text := fun _ =>
       Raise {| exn_cls := FileNotFoundError;
                exn_str := u "No such file or directory" |} |}.

(** Sample configuration files: a usual one; one whose path line holds the
    marker twice; one whose first path line is a YAML comment; one without
    a path line. *)
Definition profiles_usual : pystr :=
  u "facebook_pages:" ++ nl ++ u "  target: dev" ++ nl ++ u "  outputs:" ++ nl
    ++ u "    dev:" ++ nl ++ u "      type: duckdb" ++ nl
    ++ u "      path: 'data/facebook.duckdb'" ++ nl.
Definition profiles_two_markers : pystr := u "path: a/path:b.duckdb".
Definition profiles_commented : pystr :=
  u "outputs:" ++ nl ++ u "  # path: old.duckdb" ++ nl ++ u "  path: new.duckdb".
Definition profiles_without_path : pystr :=
  u "facebook_pages:" ++ nl ++ u "  target: dev" ++ nl.

(** ** More observers *)

(** The filesystem calls of a run, in order. *)
Definition fs_events (t : list event) : list event :=
  filter (fun e => match e with
                   | PathExists _ | OsPathExists _ | OpenRead _ => true
                   | _ => false
                   end) t.

(** A quote mark: one of the two characters the script strips. *)
Definition is_quote (c : N) : bool := existsb (N.eqb c) quote_chars.

(** [s] begins with a character that [f] holds of. *)
Definition starts_with (f : N -> bool) (s : pystr) : bool :=
  match hd_error s with
  | Some c => f c
  | None => false
  end.

(** [m] is not empty, and [f] holds neither of its first nor of its last
    character. *)
Definition ends_clean (f : N -> bool) (m : pystr) : bool :=
  match hd_error m, hd_error (List.rev m) with
  | Some x, Some y => negb (f x) && negb (f y)
  | _, _ => false
  end.

(** [sep.join(parts)] *)
Fixpoint join (sep : pystr) (parts : list pystr) : pystr :=
  match parts with
  | [] => []
  | p :: rest =>
      match rest with
      | [] => p
      | _ :: _ => p ++ sep ++ join sep rest
      end
  end.

(** A world with the interpreter [v]; every command exits with 0, there
    is no configuration file, the default database file is there. *)
Definition world_with_version (v : version_info) : env :=
  {| sys_version_info := v;
     run_process := fun c => completed 0 (u "All checks passed!") [];
     path_exists := fun _ => Return false;
     os_path_exists := fun _ => true;
     read_text := fun _ =>
       Raise {| exn_cls := FileNotFoundError;
                exn_str := u "No such file or directory" |} |}.

(** A world in which the directory [.dbt] cannot be searched: asking
    whether [.dbt/profiles.yml] exists raises [PermissionError].  Everything
    else is in order: every command exits with 0, [dbt debug] passes, the
    database file is there. *)
Definition world_with_locked_dbt : env :=
  {| sys_version_info :=
       {| major := 3; minor := 11; micro := 4;
          releaselevel := u "final"; serial := 0 |};
     run_process := fun c => completed 0 (u "All checks passed!") [];
     path_exists := fun _ =>
       Raise {| exn_cls := PermissionError;
                exn_str := u "[Errno 13] Permission denied: '.dbt/profiles.yml'" |};
     os_path_exists := fun _ => true;
     read_text := fun _ =>
       Raise {| exn_cls := PermissionError;
                exn_str := u "[Errno 13] Permission denied: '.dbt/profiles.yml'" |} |}.

(** ** The monad *)

Lemma run_eq {A} (m : M A) w : m w = (output m w, outcome m w).
Proof. unfold output, outcome. destruct (m w); reflexivity. Qed.

Lemma print_header_run title w : print_header title w = (header title, Return tt).
Proof. reflexivity. Qed.

(** ** The external-command steps *)

Lemma run_command_run command description w :
  run_command command description w =
  match run_process w (Shell command) with
  | Return r =>
      if (returncode r =? 0)%Z then
        ([Print (nl ++ u "🔄 " ++ description ++ u "...");
          SubprocessRun (Shell command);
          Print (u "✅ " ++ description ++ u " completed successfully")],
         Return true)
      else
        ([Print (nl ++ u "🔄 " ++ description ++ u "...");
          SubprocessRun (Shell command);
          Print (u "❌ " ++ description ++ u " failed:");
          Print (stderr r)],
         Return false)
  | Raise e =>
      ([Print (nl ++ u "🔄 " ++ description ++ u "...");
        SubprocessRun (Shell command);
        Print (u "❌ Error during " ++ description ++ u ": " ++ exn_str e)],
       Return false)
  end.
Proof.
  unfold run_command, try_except, bind, subprocess_run, print, ret.
  destruct (run_process w (Shell command)) as [r|e]; simpl.
  - destruct (returncode r =? 0)%Z; reflexivity.
  - reflexivity.
Qed.

Lemma run_command_outcome command description w :
  outcome (run_command command description) w =
  Return (succeeded (run_command command description) w).
Proof.
  unfold succeeded, outcome. rewrite run_command_run.
  destruct (run_process w (Shell command)) as [r|e]; simpl;
    [destruct (returncode r =? 0)%Z|]; reflexivity.
Qed.

Lemma run_command_commands command description w :
  commands_run (output (run_command command description) w) = [Shell command].
Proof.
  unfold output. rewrite run_command_run.
  destruct (run_process w (Shell command)) as [r|e]; simpl;
    [destruct (returncode r =? 0)%Z|]; reflexivity.
Qed.

(** ** Python strings: searching and splitting *)

Lemma startswith_app p r : startswith p (p ++ r) = true.
Proof.
  induction p as [|x p IH]; simpl; [reflexivity|].
  rewrite N.eqb_refl. exact IH.
Qed.

Lemma startswith_inv p s : startswith p s = true -> s = p ++ skipn (List.length p) s.
Proof.
  revert s. induction p as [|x p IH]; intros [|y s]; simpl;
    try reflexivity; try discriminate.
  intros H. apply andb_prop in H as [Hxy H].
  apply N.eqb_eq in Hxy. subst y. f_equal. apply IH, H.
Qed.

(** [find] gives an occurrence, and the first one. *)
Lemma find_Some sub s i :
  find sub s = Some i ->
  s = firstn i s ++ sub ++ skipn (i + List.length sub) s /\
  forall j, j < i -> startswith sub (skipn j s) = false.
Proof.
  revert i. induction s as [|c s IH]; intros i.
  - simpl. destruct (startswith sub []) eqn:E; [|discriminate].
    intros [= <-]. split; [|intros j Hj; lia].
    apply startswith_inv in E. exact E.
  - cbn [find]. destruct (startswith sub (c :: s)) eqn:E.
    + intros [= <-]. split; [|intros j Hj; lia].
      apply startswith_inv in E. exact E.
    + destruct (find sub s) as [k|] eqn:F; simpl; [|discriminate].
      intros [= <-]. destruct (IH k eq_refl) as [Hs Hfirst]. split.
      * simpl. f_equal. exact Hs.
      * intros [|j] Hj; simpl; [exact E|]. apply Hfirst. lia.
Qed.

Lemma find_None sub s :
  find sub s = None -> forall j, startswith sub (skipn j s) = false.
Proof.
  induction s as [|c s IH].
  - simpl. destruct (startswith sub []) eqn:E; [discriminate|].
    intros _ j. rewrite skipn_nil. exact E.
  - cbn [find]. destruct (startswith sub (c :: s)) eqn:E; [discriminate|].
    destruct (find sub s) as [k|]; simpl; [discriminate|].
    intros _ [|j]; simpl; [exact E|]. apply IH. reflexivity.
Qed.

Lemma find_app a sub b : exists i, find sub (a ++ sub ++ b) = Some i.
Proof.
  induction a as [|x a [i IH]].
  - exists 0. simpl. destruct (sub ++ b) eqn:E.
    + simpl. destruct sub; [reflexivity|discriminate].
    + cbn [find]. rewrite <- E, startswith_app. reflexivity.
  - simpl app. cbn [find].
    destruct (startswith sub (x :: a ++ sub ++ b)); [exists 0; reflexivity|].
    rewrite IH. exists (S i). reflexivity.
Qed.

(** [sub in s] holds exactly when [sub] occurs in [s]. *)
Lemma contains_iff sub s :
  contains sub s = true <-> exists a b, s = a ++ sub ++ b.
Proof.
  unfold contains. split.
  - destruct (find sub s) as [i|] eqn:F; [|discriminate]. intros _.
    apply find_Some in F as [Hs _]. eauto.
  - intros (a & b & ->). destruct (find_app a sub b) as [i ->]. reflexivity.
Qed.

Lemma contains_within sub a s b :
  contains sub s = true -> contains sub (a ++ s ++ b) = true.
Proof.
  rewrite !contains_iff. intros (a' & b' & ->).
  exists (a ++ a'), (b' ++ b). rewrite !app_assoc. reflexivity.
Qed.

Lemma split_nonempty_unfold c sep' s :
  split_nonempty c sep' s =
  match find (c :: sep') s with
  | None => [s]
  | Some i =>
      firstn i s
        :: split_nonempty c sep' (skipn (i + List.length (c :: sep')) s)
  end.
Proof.
  simp split_nonempty. unfold inspect.
  generalize (@eq_refl _ (find (c :: sep') s)).
  generalize (find (c :: sep') s) at 2 4 5.
  intros [i|] E; simp split_nonempty; reflexivity.
Qed.

(** Every piece of a split is a substring of the string split. *)
Lemma split_nonempty_pieces c sep' s p :
  In p (split_nonempty c sep' s) -> exists a b, s = a ++ p ++ b.
Proof.
  remember (List.length s) as n eqn:Hn. revert s Hn p.
  induction n as [n IH] using lt_wf_ind. intros s Hn p.
  rewrite split_nonempty_unfold.
  destruct (find (c :: sep') s) as [i|] eqn:F.
  - pose proof (find_bound _ _ _ F) as Hb.
    apply find_Some in F as [Hs _]. simpl in Hb.
    intros [<- | Hin].
    + exists [], ((c :: sep') ++ skipn (i + List.length (c :: sep')) s).
      exact Hs.
    + apply (IH (List.length (skipn (i + List.length (c :: sep')) s))) in Hin;
        [|rewrite length_skipn; simpl; lia|reflexivity].
      destruct Hin as (a & b & Hab).
      exists (firstn i s ++ (c :: sep') ++ a), b.
      rewrite Hs at 1. rewrite Hab. rewrite <- !app_assoc. reflexivity.
  - intros [<- | []]. exists [], []. rewrite app_nil_r. reflexivity.
Qed.

Lemma split_contains sep s parts line sub :
  split sep s = Some parts -> In line parts ->
  contains sub line = true -> contains sub s = true.
Proof.
  destruct sep as [|c sep']; [discriminate|]. intros [= <-] Hin Hsub.
  apply split_nonempty_pieces in Hin as (a & b & ->).
  apply contains_within, Hsub.
Qed.

(** The second piece of a split: what lies between the first separator
    and the next one. *)
Lemma split_second sep s :
  sep <> [] -> contains sep s = true ->
  exists parts, split sep s = Some parts /\
    nth_error parts 1 = Some (upto_marker sep (after_marker sep s)).
Proof.
  destruct sep as [|c sep']; [congruence|]. intros _ Hc.
  eexists. split; [reflexivity|].
  unfold contains in Hc. unfold after_marker, upto_marker.
  rewrite split_nonempty_unfold.
  destruct (find (c :: sep') s) as [i|]; [|discriminate].
  rewrite (split_nonempty_unfold c sep' (skipn _ s)). cbn [nth_error].
  destruct (find (c :: sep') (skipn (i + List.length (c :: sep')) s));
    reflexivity.
Qed.

Lemma path_marker_nonempty : path_marker <> [].
Proof. vm_compute. discriminate. Qed.

(** ** The scan of the configuration file *)

Lemma for_line_in_run lines db_file w :
  for_line_in lines db_file w =
  ([], Return match List.find is_path_line lines with
              | Some line => path_of_line line
              | None => db_file
              end).
Proof.
  induction lines as [|l lines IH]; simpl; [reflexivity|].
  change (u "path:") with path_marker. change (u ".duckdb") with duckdb_ext. fold (is_path_line l).
  destruct (is_path_line l) eqn:Hl; [|exact IH].
  apply andb_prop in Hl as [Hm _].
  destruct (split_second path_marker l path_marker_nonempty Hm)
    as (parts & Hsplit & Hnth).
  unfold str_split, getitem, bind. rewrite Hsplit. unfold ret at 1.
  rewrite Hnth. reflexivity.
Qed.

Lemma find_path_line_none content lines :
  split nl content = Some lines ->
  contains path_marker content = false ->
  List.find is_path_line lines = None.
Proof.
  intros Hsplit Hc. destruct (List.find is_path_line lines) as [l|] eqn:F;
    [|reflexivity].
  apply find_some in F as [Hin Hl]. apply andb_prop in Hl as [Hm _].
  rewrite (split_contains _ _ _ _ _ Hsplit Hin Hm) in Hc. discriminate.
Qed.

(** ** Step 4: the database check *)

Lemma check_database_file_absent w :
  path_exists w profiles_file = Return false ->
  check_database_file w =
  (PathExists profiles_file :: OsPathExists default_db_file
     :: db_report default_db_file (os_path_exists w default_db_file),
   Return (os_path_exists w default_db_file)).
Proof.
  intros H. unfold check_database_file, bind, Path_exists.
  change (u ".dbt/profiles.yml") with profiles_file.
  change (u "facebook_pages_pipeline.duckdb") with default_db_file. rewrite H. simpl.
  destruct (os_path_exists w default_db_file); reflexivity.
Qed.

Lemma check_database_file_unreadable w e :
  path_exists w profiles_file = Return true ->
  read_text w profiles_file = Raise e ->
  check_database_file w =
  (PathExists profiles_file :: OpenRead profiles_file
     :: OsPathExists default_db_file
     :: db_report default_db_file (os_path_exists w default_db_file),
   Return (os_path_exists w default_db_file)).
Proof.
  intros H R. unfold check_database_file, bind, Path_exists, try_except, open_read.
  change (u ".dbt/profiles.yml") with profiles_file.
  change (u "facebook_pages_pipeline.duckdb") with default_db_file. rewrite H, R. simpl.
  destruct (os_path_exists w default_db_file); reflexivity.
Qed.

Lemma check_database_file_read w content :
  path_exists w profiles_file = Return true ->
  read_text w profiles_file = Return content ->
  check_database_file w =
  (PathExists profiles_file :: OpenRead profiles_file
     :: OsPathExists (configured_db_file content)
     :: db_report (configured_db_file content)
          (os_path_exists w (configured_db_file content)),
   Return (os_path_exists w (configured_db_file content))).
Proof.
  intros H R.
  assert (Hscan :
    (if contains (u "path:") content
     then bind (str_split nl content)
            (fun lines => for_line_in lines default_db_file)
     else ret default_db_file) w
    = ([], Return (configured_db_file content))).
  { unfold configured_db_file, str_split. change (u "path:") with path_marker.
    destruct (split nl content) as [lines|] eqn:Hs; [|discriminate].
    destruct (contains path_marker content) eqn:Hc.
    - unfold bind, ret. rewrite for_line_in_run. reflexivity.
    - rewrite (find_path_line_none _ _ Hs Hc). reflexivity. }
  unfold check_database_file, Path_exists, open_read.
  change (u ".dbt/profiles.yml") with profiles_file.
  change (u "facebook_pages_pipeline.duckdb") with default_db_file.
  unfold bind at 1. rewrite H.
  unfold bind at 1. unfold try_except. unfold bind at 1. rewrite R.
  rewrite Hscan. cbn [app find_handler].
  unfold bind, os_path_exists_, print, ret. simpl.
  destruct (os_path_exists w (configured_db_file content)); reflexivity.
Qed.

(** The existence test of line 39 is outside the [try]: what it raises
    leaves the function. *)
Lemma check_database_file_raises w e :
  path_exists w profiles_file = Raise e ->
  check_database_file w = ([PathExists profiles_file], Raise e).
Proof.
  intros H. unfold check_database_file, bind, Path_exists.
  change (u ".dbt/profiles.yml") with profiles_file. rewrite H. reflexivity.
Qed.

(** When the existence test answers, the check goes to its end. *)
Lemma check_database_file_answered w found :
  path_exists w profiles_file = Return found ->
  exists db,
    check_database_file w =
    (PathExists profiles_file
       :: (if found then [OpenRead profiles_file] else [])
       ++ OsPathExists db :: db_report db (os_path_exists w db),
     Return (os_path_exists w db)).
Proof.
  intros H. destruct found.
  - destruct (read_text w profiles_file) as [content|e] eqn:R.
    + exists (configured_db_file content).
      rewrite (check_database_file_read _ _ H R). reflexivity.
    + exists default_db_file.
      rewrite (check_database_file_unreadable _ _ H R). reflexivity.
  - exists default_db_file.
    rewrite (check_database_file_absent _ H). reflexivity.
Qed.

Lemma check_database_file_outcome w found :
  path_exists w profiles_file = Return found ->
  outcome check_database_file w = Return (succeeded check_database_file w).
Proof.
  intros H. unfold succeeded, outcome.
  destruct (check_database_file_answered _ _ H) as [db ->]. reflexivity.
Qed.

(** ** Step 5: the connection test *)

Lemma check_dbt_connection_run w :
  check_dbt_connection w =
  match run_process w (Argv [u "dbt"; u "debug"]) with
  | Return r =>
      if contains (u "All checks passed!") (stdout r) then
        ([Print (nl ++ u "🔄 Testing dbt database connection...");
          SubprocessRun (Argv [u "dbt"; u "debug"]);
          Print (u "✅ dbt connection test passed")],
         Return true)
      else
        ([Print (nl ++ u "🔄 Testing dbt database connection...");
          SubprocessRun (Argv [u "dbt"; u "debug"]);
          Print (u "❌ dbt connection test failed:");
          Print (stdout r); Print (stderr r)],
         Return false)
  | Raise e =>
      if issubclass (exn_cls e) FileNotFoundError then
        ([Print (nl ++ u "🔄 Testing dbt database connection...");
          SubprocessRun (Argv [u "dbt"; u "debug"]);
          Print (u "❌ dbt command not found. Please install dbt-core and dbt-duckdb")],
         Return false)
      else
        ([Print (nl ++ u "🔄 Testing dbt database connection...");
          SubprocessRun (Argv [u "dbt"; u "debug"]);
          Print (u "❌ Error testing dbt connection: " ++ exn_str e)],
         Return false)
  end.
Proof.
  unfold check_dbt_connection, try_except, bind, subprocess_run, print, ret.
  destruct (run_process w (Argv [u "dbt"; u "debug"])) as [r|e].
  - simpl. destruct (contains (u "All checks passed!") (stdout r)); reflexivity.
  - cbn [find_handler].
    destruct (issubclass (exn_cls e) FileNotFoundError); reflexivity.
Qed.

Lemma check_dbt_connection_outcome w :
  outcome check_dbt_connection w = Return (succeeded check_dbt_connection w).
Proof.
  unfold succeeded, outcome. rewrite check_dbt_connection_run.
  destruct (run_process w (Argv [u "dbt"; u "debug"])) as [r|e].
  - destruct (contains (u "All checks passed!") (stdout r)); reflexivity.
  - destruct (issubclass (exn_cls e) FileNotFoundError); reflexivity.
Qed.

(** ** The whole run *)

Lemma check_run (m : M bool) w :
  outcome m w = Return (succeeded m w) ->
  m w = (output m w, Return (succeeded m w)).
Proof. intros H. rewrite (run_eq m w), H. reflexivity. Qed.

Lemma count_successes_bound l : (0 <= count_successes l <= Z.of_nat (List.length l))%Z.
Proof.
  induction l as [|b l IH]; [simpl; lia|].
  cbn [count_successes List.length]. destruct b; lia.
Qed.

(** The run of [main]: the banner, the six steps one after the other, the
    count of the steps that succeeded, the closing messages; and [main]
    returns. *)
Lemma main_run w found :
  path_exists w profiles_file = Return found ->
  main w =
  (banner ++ steps_events w ++ header (u "Setup Complete")
     ++ Print (summary_line (count_successes (step_outcomes w)))
     :: closing_events (count_successes (step_outcomes w)),
   Return tt).
Proof.
  intros Hfound. unfold main, steps_events, step_outcomes, step_events, step1_events,
    version_ok, flat_map, banner.
  fold pip_install dbt_deps dbt_compile.
  unfold bind. rewrite !print_header_run.
  rewrite (check_run pip_install w (run_command_outcome _ _ w)).
  rewrite (check_run dbt_deps w (run_command_outcome _ _ w)).
  rewrite (check_run dbt_compile w (run_command_outcome _ _ w)).
  rewrite (check_run _ w (check_database_file_outcome w found Hfound)).
  rewrite (check_run _ w (check_dbt_connection_outcome w)).
  unfold print, ret, get_version_info.
  destruct (tuple_ge (version_tuple (sys_version_info w)) [3; 8]%Z),
    (succeeded pip_install w), (succeeded dbt_deps w),
    (succeeded check_database_file w), (succeeded check_dbt_connection w),
    (succeeded dbt_compile w);
    cbn -[header]; rewrite <- ?app_assoc; reflexivity.
Qed.

(** When the existence test of step 4 raises, the run ends there: steps 1
    to 3 are done, step 4 is begun, and the exception leaves [main]. *)
Lemma main_run_raises w e :
  path_exists w profiles_file = Raise e ->
  main w =
  (banner ++ step_events 1 w ++ step_events 2 w ++ step_events 3 w
     ++ header (u "Step 4: Database Check") ++ [PathExists profiles_file],
   Raise e).
Proof.
  intros Hraise. unfold main, step_events, step1_events, version_ok, banner.
  fold pip_install dbt_deps dbt_compile.
  unfold bind. rewrite !print_header_run.
  rewrite (check_run pip_install w (run_command_outcome _ _ w)).
  rewrite (check_run dbt_deps w (run_command_outcome _ _ w)).
  rewrite (check_database_file_raises _ _ Hraise).
  unfold print, ret, get_version_info.
  destruct (tuple_ge (version_tuple (sys_version_info w)) [3; 8]%Z),
    (succeeded pip_install w), (succeeded dbt_deps w);
    cbn -[header]; rewrite <- ?app_assoc; reflexivity.
Qed.

Lemma world_with_outcomes_steps b1 b2 b3 b4 b5 b6 :
  step_outcomes (world_with_outcomes b1 b2 b3 b4 b5 b6) = [b1; b2; b3; b4; b5; b6].
Proof.
  destruct b1, b2, b3, b4, b5, b6; vm_compute; reflexivity.
Qed.

Lemma commands_run_app t1 t2 :
  commands_run (t1 ++ t2) = commands_run t1 ++ commands_run t2.
Proof. apply flat_map_app. Qed.

Lemma commands_run_closing n : commands_run (closing_events n) = [].
Proof.
  unfold closing_events.
  destruct (n =? 6)%Z; [reflexivity|].
  destruct (n <? 4)%Z; reflexivity.
Qed.

Lemma check_database_file_commands w :
  commands_run (output check_database_file w) = [].
Proof.
  unfold output.
  destruct (path_exists w profiles_file) as [found|e] eqn:H.
  - destruct (check_database_file_answered _ _ H) as [db ->]. cbn [fst].
    destruct found, (os_path_exists w db); reflexivity.
  - rewrite (check_database_file_raises _ _ H). reflexivity.
Qed.

Lemma check_dbt_connection_commands w :
  commands_run (output check_dbt_connection w) = [dbt_debug].
Proof.
  unfold output. rewrite check_dbt_connection_run.
  destruct (run_process w (Argv [u "dbt"; u "debug"])) as [r|e].
  - destruct (contains (u "All checks passed!") (stdout r)); reflexivity.
  - destruct (issubclass (exn_cls e) FileNotFoundError); reflexivity.
Qed.

Lemma db_paths_checked_app t1 t2 :
  db_paths_checked (t1 ++ t2) = db_paths_checked t1 ++ db_paths_checked t2.
Proof. apply flat_map_app. Qed.

Lemma db_paths_checked_report db there : db_paths_checked (db_report db there) = [].
Proof. destruct there; reflexivity. Qed.

Lemma db_paths_checked_closing n : db_paths_checked (closing_events n) = [].
Proof.
  unfold closing_events.
  destruct (n =? 6)%Z; [reflexivity|].
  destruct (n <? 4)%Z; reflexivity.
Qed.

Lemma run_command_paths command description w :
  db_paths_checked (output (run_command command description) w) = [].
Proof.
  unfold output. rewrite run_command_run.
  destruct (run_process w (Shell command)) as [r|e]; simpl;
    [destruct (returncode r =? 0)%Z|]; reflexivity.
Qed.

Lemma check_dbt_connection_paths w :
  db_paths_checked (output check_dbt_connection w) = [].
Proof.
  unfold output. rewrite check_dbt_connection_run.
  destruct (run_process w (Argv [u "dbt"; u "debug"])) as [r|e].
  - destruct (contains (u "All checks passed!") (stdout r)); reflexivity.
  - destruct (issubclass (exn_cls e) FileNotFoundError); reflexivity.
Qed.

(** Step 4 asks [os.path.exists] about one path. *)
Lemma check_database_file_paths w found :
  path_exists w profiles_file = Return found ->
  exists db, db_paths_checked (output check_database_file w) = [db].
Proof.
  intros H. unfold output.
  destruct (check_database_file_answered _ _ H) as [db ->]. exists db.
  cbn [fst]. destruct found; cbn [app db_paths_checked flat_map];
    fold (db_paths_checked (db_report db (os_path_exists w db)));
    rewrite db_paths_checked_report; reflexivity.
Qed.

Ltac split_In :=
  repeat match goal with
         | H : _ \/ _ |- _ => destruct H as [H | H]
         | H : False |- _ => destruct H
         end.

(** ** The claims *)

(** C1: in every world where the run comes to its summary (the existence
    test of step 4 gives an answer), the count printed in the final
    summary is the number of steps whose check succeeded, one for each
    success and nothing for a failure; and every combination of the six
    outcomes occurs in some such world. *)
Theorem C1_summary_count_is_number_of_successes :
  (forall w,
     (forall found, path_exists w profiles_file = Return found ->
        output main w =
          banner ++ steps_events w ++ header (u "Setup Complete")
            ++ Print (summary_line (count_successes (step_outcomes w)))
            :: closing_events (count_successes (step_outcomes w)))
     /\ count_successes (step_outcomes w)
        = Z.of_nat (count_occ bool_dec (step_outcomes w) true)
     /\ (0 <= count_successes (step_outcomes w) <= 6)%Z)
  /\ (forall b1 b2 b3 b4 b5 b6, exists w,
        step_outcomes w = [b1; b2; b3; b4; b5; b6]
        /\ path_exists w profiles_file = Return false).
Proof.
  split.
  - intros w. split; [|split].
    + intros found Hfound. unfold output. rewrite (main_run _ _ Hfound).
      reflexivity.
    + unfold step_outcomes.
      destruct (version_ok w), (succeeded pip_install w),
        (succeeded dbt_deps w), (succeeded check_database_file w),
        (succeeded check_dbt_connection w), (succeeded dbt_compile w);
        reflexivity.
    + exact (count_successes_bound (step_outcomes w)).
  - intros b1 b2 b3 b4 b5 b6.
    exists (world_with_outcomes b1 b2 b3 b4 b5 b6).
    split; [apply world_with_outcomes_steps|reflexivity].
Qed.

(** C1 at work: three steps of six succeed, and the count line says 3. *)
Lemma C1_summary_count_is_number_of_successes_witness :
  output main (world_with_outcomes true true true false false false) =
    banner ++ steps_events (world_with_outcomes true true true false false false)
      ++ header (u "Setup Complete")
      ++ Print (summary_line 3) :: closing_events 3.
Proof.
  destruct C1_summary_count_is_number_of_successes as [H _].
  destruct (H (world_with_outcomes true true true false false false)) as [Hout _].
  rewrite world_with_outcomes_steps in Hout. apply (Hout false). reflexivity.
Defined.

(** The run in a world where the existence test answers: all six steps
    are gone through in order, the four commands are each run once, one
    path is checked, and [main] returns. *)
Lemma main_goes_through_all_steps w found :
  path_exists w profiles_file = Return found ->
  (exists summary,
     output main w =
       banner ++ step_events 1 w ++ step_events 2 w ++ step_events 3 w
         ++ step_events 4 w ++ step_events 5 w ++ step_events 6 w
         ++ summary)
  /\ commands_run (output main w) =
       [Shell (u "pip install -r requirements.txt"); Shell (u "dbt deps");
        dbt_debug; Shell (u "dbt compile")]
  /\ List.length (db_paths_checked (output main w)) = 1%nat
  /\ script w = (output main w, 0%Z).
Proof.
  intros Hfound. split; [|split; [|split]].
  - eexists. unfold output. rewrite (main_run _ _ Hfound). unfold steps_events.
    cbn [flat_map fst]. rewrite <- !app_assoc, app_nil_l. reflexivity.
  - unfold output. rewrite (main_run _ _ Hfound). cbn [fst].
    unfold steps_events, banner. cbn [flat_map step_events step1_events].
    rewrite !commands_run_app.
    unfold pip_install, dbt_deps, dbt_compile.
    rewrite !run_command_commands, check_database_file_commands,
      check_dbt_connection_commands.
    change (Print ?s :: closing_events ?n) with ([Print s] ++ closing_events n).
    rewrite !commands_run_app, commands_run_closing. reflexivity.
  - unfold output. rewrite (main_run _ _ Hfound). cbn [fst].
    unfold steps_events, banner. cbn [flat_map step_events step1_events].
    change (Print ?s :: closing_events ?n) with ([Print s] ++ closing_events n).
    rewrite !db_paths_checked_app.
    unfold pip_install, dbt_deps, dbt_compile.
    rewrite !run_command_paths, check_dbt_connection_paths,
      db_paths_checked_closing.
    destruct (check_database_file_paths _ _ Hfound) as [db ->]. reflexivity.
  - unfold script, output. rewrite (main_run _ _ Hfound). reflexivity.
Qed.

(** C2 fails on the code.  The existence test of step 4 stands before the
    [try]; in a world where it raises [PermissionError] the run stops in
    step 4: steps 1 to 3 are done, step 4 is begun, steps 5 and 6 are
    never attempted ([dbt debug] and [dbt compile] are not run) and the
    exception leaves [main]. *)
Theorem C2_locked_directory_stops_the_run :
  output main world_with_locked_dbt =
    banner ++ step_events 1 world_with_locked_dbt
      ++ step_events 2 world_with_locked_dbt
      ++ step_events 3 world_with_locked_dbt
      ++ header (u "Step 4: Database Check")
      ++ [PathExists (u ".dbt/profiles.yml")]
  /\ commands_run (output main world_with_locked_dbt) =
       [Shell (u "pip install -r requirements.txt"); Shell (u "dbt deps")]
  /\ ~ In (Print (u "  Step 5: Database Connection Test"))
          (output main world_with_locked_dbt)
  /\ ~ In (Print (u "  Step 6: Compile Models"))
          (output main world_with_locked_dbt)
  /\ outcome main world_with_locked_dbt =
       Raise {| exn_cls := PermissionError;
                exn_str := u "[Errno 13] Permission denied: '.dbt/profiles.yml'" |}.
Proof.
  split; [|split; [|split; [|split]]].
  - unfold output. rewrite (main_run_raises world_with_locked_dbt _ eq_refl).
    reflexivity.
  - vm_compute. reflexivity.
  - intros H. vm_compute in H. split_In; discriminate H.
  - intros H. vm_compute in H. split_In; discriminate H.
  - unfold outcome. rewrite (main_run_raises world_with_locked_dbt _ eq_refl).
    reflexivity.
Qed.

(** C3 fails on the code.  Six failing steps leave the exit status at 0,
    but in the world where the existence test of step 4 raises
    [PermissionError] the exception leaves [main] and the process exits
    with status 1. *)
Theorem C3_locked_directory_exit_status :
  snd (script world_with_locked_dbt) = 1%Z
  /\ step_outcomes (world_with_outcomes false false false false false false)
     = [false; false; false; false; false; false]
  /\ snd (script (world_with_outcomes false false false false false false)) = 0%Z.
Proof.
  split; [|split].
  - unfold script. rewrite (main_run_raises world_with_locked_dbt _ eq_refl).
    reflexivity.
  - apply world_with_outcomes_steps.
  - unfold script.
    rewrite (main_run (world_with_outcomes false false false false false false)
               false eq_refl).
    reflexivity.
Qed.

(** C4: step 5 succeeds exactly when [dbt debug] ran and its captured
    standard output contains the success phrase; when it ran and the phrase
    is absent the step fails and prints the captured stdout and stderr;
    when the executable is not found the step fails with a message of its
    own, different from that of a failed check. *)
Theorem C4_connection_test w :
  (succeeded check_dbt_connection w = true <->
   exists r, run_process w dbt_debug = Return r
             /\ contains (u "All checks passed!") (stdout r) = true)
  /\ (forall r, run_process w dbt_debug = Return r ->
        contains (u "All checks passed!") (stdout r) = false ->
        succeeded check_dbt_connection w = false
        /\ printed (output check_dbt_connection w) =
             [nl ++ u "🔄 Testing dbt database connection...";
              u "❌ dbt connection test failed:"; stdout r; stderr r])
  /\ (forall e, run_process w dbt_debug = Raise e ->
        issubclass (exn_cls e) FileNotFoundError = true ->
        succeeded check_dbt_connection w = false
        /\ printed (output check_dbt_connection w) =
             [nl ++ u "🔄 Testing dbt database connection...";
              u "❌ dbt command not found. Please install dbt-core and dbt-duckdb"])
  /\ u "❌ dbt command not found. Please install dbt-core and dbt-duckdb"
     <> u "❌ dbt connection test failed:".
Proof.
  unfold succeeded, outcome, output, dbt_debug.
  rewrite check_dbt_connection_run.
  split; [|split; [|split]].
  - destruct (run_process w (Argv [u "dbt"; u "debug"])) as [r|e].
    + destruct (contains (u "All checks passed!") (stdout r)) eqn:E; simpl.
      * split; [|reflexivity]. intros _. exists r. split; [reflexivity|exact E].
      * split; [discriminate|]. intros (r' & [= <-] & H). congruence.
    + destruct (issubclass (exn_cls e) FileNotFoundError); simpl;
        (split; [discriminate|]); intros (r & H & _); discriminate H.
  - intros r -> ->. split; reflexivity.
  - intros e -> ->. split; reflexivity.
  - vm_compute. discriminate.
Qed.

(** C4 at work: a [dbt debug] that reports a failed check, and a machine
    without [dbt]. *)
Lemma C4_connection_test_witness :
  (succeeded check_dbt_connection
     (world_with_outcomes true true true true false true) = false
   /\ printed (output check_dbt_connection
                 (world_with_outcomes true true true true false true)) =
        [nl ++ u "🔄 Testing dbt database connection...";
         u "❌ dbt connection test failed:"; u "1 check failed:"; []])
  /\ (succeeded check_dbt_connection world_without_dbt = false
      /\ printed (output check_dbt_connection world_without_dbt) =
           [nl ++ u "🔄 Testing dbt database connection...";
            u "❌ dbt command not found. Please install dbt-core and dbt-duckdb"]).
Proof.
  split.
  - destruct (C4_connection_test (world_with_outcomes true true true true false true))
      as (_ & H & _).
    apply (H {| returncode := 0; stdout := u "1 check failed:"; stderr := [] |});
      vm_compute; reflexivity.
  - destruct (C4_connection_test world_without_dbt) as (_ & _ & H & _).
    apply (H {| exn_cls := FileNotFoundError;
                exn_str := u "[Errno 2] No such file or directory: 'dbt'" |});
      vm_compute; reflexivity.
Defined.

(** C7: step 1 succeeds exactly when the interpreter is at least 3.8
    (major above 3, or major 3 and minor at least 8): every 3.7.x fails,
    every 3.11.x succeeds; the step prints the version and its verdict and
    does nothing else, whatever the verdict. *)
Theorem C7_environment_check :
  (forall w,
     (version_ok w = true <->
      (3 < major (sys_version_info w)
       \/ (major (sys_version_info w) = 3 /\ 8 <= minor (sys_version_info w)))%Z)
     /\ nth_error (step_outcomes w) 0 = Some (version_ok w)
     /\ (exists rest,
           output main w =
             banner ++ header (u "Step 1: Environment Check")
               ++ [Print (u "Python version: "
                          ++ str_of_int (major (sys_version_info w)) ++ u "."
                          ++ str_of_int (minor (sys_version_info w)) ++ u "."
                          ++ str_of_int (micro (sys_version_info w)));
                   Print (if version_ok w
                          then u "✅ Python version is compatible"
                          else u "❌ Python 3.8+ required")]
               ++ header (u "Step 2: Install Dependencies") ++ rest)
     /\ commands_run (step_events 1 w) = [])
  /\ (forall x level n,
        tuple_ge (version_tuple {| major := 3; minor := 7; micro := x;
                                   releaselevel := level; serial := n |})
                 [3; 8]%Z = false)
  /\ (forall x level n,
        tuple_ge (version_tuple {| major := 3; minor := 11; micro := x;
                                   releaselevel := level; serial := n |})
                 [3; 8]%Z = true).
Proof.
  split; [|split; reflexivity].
  intros w. split; [|split; [reflexivity|split; [|reflexivity]]].
  - unfold version_ok, version_tuple. cbn [tuple_ge].
    destruct (Z.eqb_spec (major (sys_version_info w)) 3) as [-> | Hm].
    + destruct (Z.eqb_spec (minor (sys_version_info w)) 8) as [-> | Hn].
      * split; [intros _; right; lia | reflexivity].
      * rewrite Z.ltb_lt. lia.
    + rewrite Z.ltb_lt. lia.
  - unfold output.
    destruct (path_exists w profiles_file) as [found|e] eqn:Hfound.
    + eexists. rewrite (main_run _ _ Hfound). cbn [fst].
      unfold steps_events. cbn [flat_map step_events step1_events].
      rewrite <- !app_assoc. reflexivity.
    + eexists. rewrite (main_run_raises _ _ Hfound). cbn [fst].
      cbn [step_events step1_events].
      rewrite <- !app_assoc. reflexivity.
Qed.

Lemma find_first {A} (f : A -> bool) pre x post :
  (forall y, In y pre -> f y = false) -> f x = true ->
  List.find f (pre ++ x :: post) = Some x.
Proof.
  intros Hpre Hx. induction pre as [|y pre IH]; simpl.
  - rewrite Hx. reflexivity.
  - rewrite (Hpre y (or_introl eq_refl)). apply IH.
    intros z Hz. apply Hpre. right. exact Hz.
Qed.

Lemma find_none {A} (f : A -> bool) l :
  (forall y, In y l -> f y = false) -> List.find f l = None.
Proof.
  intros H. destruct (List.find f l) as [x|] eqn:F; [|reflexivity].
  apply find_some in F as [Hin Hx]. rewrite (H x Hin) in Hx. discriminate.
Qed.

Lemma configured_db_file_first content lines line :
  split nl content = Some lines ->
  List.find is_path_line lines = Some line ->
  configured_db_file content = path_of_line line.
Proof. intros Hs Hf. unfold configured_db_file. rewrite Hs, Hf. reflexivity. Qed.

Lemma check_database_file_read_paths w content :
  path_exists w profiles_file = Return true ->
  read_text w profiles_file = Return content ->
  db_paths_checked (output check_database_file w) = [configured_db_file content].
Proof.
  intros H R. unfold output. rewrite (check_database_file_read _ _ H R).
  cbn [fst db_paths_checked flat_map app].
  fold (db_paths_checked (db_report (configured_db_file content)
          (os_path_exists w (configured_db_file content)))).
  rewrite db_paths_checked_report. reflexivity.
Qed.

(** C5 fails on the code.  The claim takes the path to be all the text of
    the line after the marker; the script takes [line.split('path:')[1]],
    which ends at a second marker.  For a configuration file whose path
    line is [path: a/path:b.duckdb] the text after the marker is
    [a/path:b.duckdb], and the script checks, and reports as found, [a/]. *)
Theorem C5_second_marker_cuts_the_path :
  path_exists (world_with_profiles (Return profiles_two_markers)) profiles_file
  = Return true
  /\ read_text (world_with_profiles (Return profiles_two_markers)) profiles_file
     = Return profiles_two_markers
  /\ split nl profiles_two_markers = Some [profiles_two_markers]
  /\ List.find is_path_line [profiles_two_markers] = Some profiles_two_markers
  /\ split (u "path:") profiles_two_markers = Some [[]; u " a/"; u "b.duckdb"]
  /\ unquote (after_marker path_marker profiles_two_markers)
     = u "a/path:b.duckdb"
  /\ db_paths_checked
       (output check_database_file
          (world_with_profiles (Return profiles_two_markers)))
     = [u "a/"]
  /\ printed
       (output check_database_file
          (world_with_profiles (Return profiles_two_markers)))
     = [u "✅ Database file found: " ++ u "a/"]
  /\ u "a/" <> u "a/path:b.duckdb".
Proof.
  repeat split; try (vm_compute; reflexivity).
  vm_compute. discriminate.
Qed.

(** C6: the default filename is the path checked when the configuration
    file is absent, when it is read and has no line with both the marker
    and the extension, and when reading it raises (then nothing is printed
    about the error); once the existence test has answered, the check
    returns. *)
Theorem C6_default_database_file w :
  (path_exists w profiles_file = Return false ->
   db_paths_checked (output check_database_file w)
   = [u "facebook_pages_pipeline.duckdb"])
  /\ (forall content lines,
        path_exists w profiles_file = Return true ->
        read_text w profiles_file = Return content ->
        split nl content = Some lines ->
        (forall l, In l lines -> is_path_line l = false) ->
        db_paths_checked (output check_database_file w)
        = [u "facebook_pages_pipeline.duckdb"])
  /\ (forall e,
        path_exists w profiles_file = Return true ->
        read_text w profiles_file = Raise e ->
        db_paths_checked (output check_database_file w)
        = [u "facebook_pages_pipeline.duckdb"]
        /\ printed (output check_database_file w)
           = printed (db_report default_db_file
                        (os_path_exists w default_db_file)))
  /\ (forall found,
        path_exists w profiles_file = Return found ->
        exists db,
          db_paths_checked (output check_database_file w) = [db]
          /\ outcome check_database_file w = Return (os_path_exists w db)).
Proof.
  change (u "facebook_pages_pipeline.duckdb") with default_db_file.
  split; [|split; [|split]].
  - intros H. unfold output. rewrite (check_database_file_absent _ H).
    cbn [fst db_paths_checked flat_map app].
    fold (db_paths_checked (db_report default_db_file
            (os_path_exists w default_db_file))).
    rewrite db_paths_checked_report. reflexivity.
  - intros content lines H R Hs Hnone.
    rewrite (check_database_file_read_paths _ _ H R).
    unfold configured_db_file. rewrite Hs, (find_none _ _ Hnone). reflexivity.
  - intros e H R. unfold output. rewrite (check_database_file_unreadable _ _ H R).
    cbn [fst]. split; [|reflexivity].
    cbn [db_paths_checked flat_map app].
    fold (db_paths_checked (db_report default_db_file
            (os_path_exists w default_db_file))).
    rewrite db_paths_checked_report. reflexivity.
  - intros found H. unfold output, outcome.
    destruct (check_database_file_answered _ _ H) as [db ->]. exists db.
    split; [|reflexivity].
    cbn [fst]. destruct found; cbn [app db_paths_checked flat_map];
      fold (db_paths_checked (db_report db (os_path_exists w db)));
      rewrite db_paths_checked_report; reflexivity.
Qed.

(** C6 at work: no configuration file; one without a path line; one that
    cannot be read. *)
Lemma C6_default_database_file_witness :
  db_paths_checked
    (output check_database_file (world_with_outcomes true true true true true true))
  = [u "facebook_pages_pipeline.duckdb"]
  /\ db_paths_checked
       (output check_database_file (world_with_profiles (Return profiles_without_path)))
     = [u "facebook_pages_pipeline.duckdb"]
  /\ db_paths_checked (output check_database_file world_of_errors)
     = [u "facebook_pages_pipeline.duckdb"].
Proof.
  split; [|split].
  - apply (C6_default_database_file (world_with_outcomes true true true true true true)).
    reflexivity.
  - destruct (C6_default_database_file
                (world_with_profiles (Return profiles_without_path)))
      as (_ & H & _).
    apply (H profiles_without_path [u "facebook_pages:"; u "  target: dev"; []]);
      try (vm_compute; reflexivity).
    intros l [<- | [<- | [<- | []]]]; vm_compute; reflexivity.
  - destruct (C6_default_database_file world_of_errors) as (_ & _ & H & _).
    apply (H {| exn_cls := PermissionError; exn_str := u "Permission denied" |});
      reflexivity.
Defined.

(** C8, as amended: an exception raised by the command of step 2, 3 or 6
    is caught, its text is printed and the step fails; so it is in step 5,
    where a missing executable gets the fixed not-found message instead.
    In step 4 an exception raised while the configuration file is opened
    or read is caught without a word: nothing is printed about it and it
    does not fail the step, which goes on to check the default filename. *)
Theorem C8_exceptions_are_caught w :
  (forall command description e,
     run_process w (Shell command) = Raise e ->
     outcome (run_command command description) w = Return false
     /\ printed (output (run_command command description) w) =
          [nl ++ u "🔄 " ++ description ++ u "...";
           u "❌ Error during " ++ description ++ u ": " ++ exn_str e])
  /\ (forall e,
        run_process w dbt_debug = Raise e ->
        outcome check_dbt_connection w = Return false
        /\ printed (output check_dbt_connection w) =
             [nl ++ u "🔄 Testing dbt database connection...";
              if issubclass (exn_cls e) FileNotFoundError
              then u "❌ dbt command not found. Please install dbt-core and dbt-duckdb"
              else u "❌ Error testing dbt connection: " ++ exn_str e])
  /\ (forall e,
        path_exists w profiles_file = Return true ->
        read_text w profiles_file = Raise e ->
        outcome check_database_file w
        = Return (os_path_exists w default_db_file)
        /\ printed (output check_database_file w)
           = printed (db_report default_db_file
                        (os_path_exists w default_db_file))).
Proof.
  split; [|split].
  - intros command description e R. unfold outcome, output.
    rewrite run_command_run, R. split; reflexivity.
  - intros e R. unfold outcome, output, dbt_debug in *.
    rewrite check_dbt_connection_run, R.
    destruct (issubclass (exn_cls e) FileNotFoundError); split; reflexivity.
  - intros e H R. unfold outcome, output.
    rewrite (check_database_file_unreadable _ _ H R). split; reflexivity.
Qed.

(** C8 at work in a world where every call that can raise does. *)
Lemma C8_exceptions_are_caught_witness :
  (outcome dbt_compile world_of_errors = Return false
   /\ printed (output dbt_compile world_of_errors) =
        [nl ++ u "🔄 " ++ u "Compiling dbt models" ++ u "...";
         u "❌ Error during " ++ u "Compiling dbt models" ++ u ": "
           ++ u "Exec format error"])
  /\ (outcome check_dbt_connection world_of_errors = Return false
      /\ printed (output check_dbt_connection world_of_errors) =
           [nl ++ u "🔄 Testing dbt database connection...";
            u "❌ Error testing dbt connection: " ++ u "Permission denied: 'dbt'"])
  /\ (outcome check_database_file world_of_errors = Return true
      /\ printed (output check_database_file world_of_errors) =
           [u "✅ Database file found: " ++ u "facebook_pages_pipeline.duckdb"]).
Proof.
  destruct (C8_exceptions_are_caught world_of_errors) as (H2 & H5 & H4).
  split; [|split].
  - apply (H2 (u "dbt compile") (u "Compiling dbt models")
              {| exn_cls := OSError; exn_str := u "Exec format error" |}).
    reflexivity.
  - apply (H5 {| exn_cls := PermissionError;
                 exn_str := u "Permission denied: 'dbt'" |}).
    reflexivity.
  - apply (H4 {| exn_cls := PermissionError; exn_str := u "Permission denied" |});
      reflexivity.
Defined.

(** C8 as stated fails for step 4: an exception raised while the
    configuration file is read neither fails the step nor gets its message
    printed. *)
Lemma C8_counterexample :
  ~ (forall w e,
       path_exists w profiles_file = Return true ->
       read_text w profiles_file = Raise e ->
       succeeded check_database_file w = false
       /\ exists s, In s (printed (output check_database_file w))
                    /\ contains (exn_str e) s = true).
Proof.
  intros H.
  destruct (H world_of_errors
              {| exn_cls := PermissionError; exn_str := u "Permission denied" |}
              eq_refl eq_refl) as [Hfail _].
  vm_compute in Hfail. discriminate Hfail.
Qed.

(** The closing messages, by the count. *)
Lemma closing_events_messages n :
  (0 <= n <= 6)%Z ->
  (In (Print celebration) (closing_events n) <-> n = 6%Z)
  /\ (forall s, In s next_steps ->
        (In (Print s) (closing_events n) <-> n = 6%Z))
  /\ (In (Print (warning n)) (closing_events n) <-> (n < 6)%Z)
  /\ (forall s, In s root_causes ->
        (In (Print s) (closing_events n) <-> (n < 4)%Z)).
Proof.
  intros Hn.
  assert (Hcases : (n = 0 \/ n = 1 \/ n = 2 \/ n = 3 \/ n = 4 \/ n = 5 \/ n = 6)%Z)
    by lia.
  destruct Hcases as [-> | [-> | [-> | [-> | [-> | [-> | ->]]]]]];
    (split; [|split; [|split]]);
    try (intros s Hs; vm_compute in Hs; split_In; subst s);
    (split; [intros H; try reflexivity; try lia; exfalso;
             vm_compute in H; split_In; discriminate H
            | intros H; try (exfalso; lia); vm_compute; tauto]).
Qed.

(** C9: in a run that comes to its summary (the existence test of step 4
    gives an answer), after the count line, the celebration and the next-step
    suggestions are printed exactly when the count is 6, the warning
    exactly when it is below 6, and the list of likely root causes exactly
    when it is below 4. *)
Theorem C9_closing_message_follows_count w found :
  path_exists w profiles_file = Return found ->
  exists tail,
    output main w =
      banner ++ steps_events w ++ header (u "Setup Complete")
        ++ Print (summary_line (count_successes (step_outcomes w))) :: tail
    /\ (In (Print celebration) tail <-> count_successes (step_outcomes w) = 6%Z)
    /\ (forall s, In s next_steps ->
          (In (Print s) tail <-> count_successes (step_outcomes w) = 6%Z))
    /\ (In (Print (warning (count_successes (step_outcomes w)))) tail
        <-> (count_successes (step_outcomes w) < 6)%Z)
    /\ (forall s, In s root_causes ->
          (In (Print s) tail <-> (count_successes (step_outcomes w) < 4)%Z)).
Proof.
  intros Hfound.
  exists (closing_events (count_successes (step_outcomes w))). split.
  - unfold output. rewrite (main_run _ _ Hfound). reflexivity.
  - apply closing_events_messages.
    exact (count_successes_bound (step_outcomes w)).
Qed.

(** C9 at work: three steps of six succeed, and both the warning and the
    root causes are printed; all six succeed, and the celebration is. *)
Lemma C9_closing_message_follows_count_witness :
  (exists tail,
     output main (world_with_outcomes true true true false false false) =
       banner ++ steps_events (world_with_outcomes true true true false false false)
         ++ header (u "Setup Complete") ++ Print (summary_line 3) :: tail
     /\ In (Print (warning 3)) tail
     /\ In (Print (nl ++ u "🚨 Critical issues detected:")) tail
     /\ ~ In (Print celebration) tail)
  /\ (exists tail,
        output main (world_with_outcomes true true true true true true) =
          banner ++ steps_events (world_with_outcomes true true true true true true)
            ++ header (u "Setup Complete") ++ Print (summary_line 6) :: tail
        /\ In (Print celebration) tail
        /\ In (Print (nl ++ u "📋 Next steps:")) tail
        /\ ~ In (Print (warning 6)) tail).
Proof.
  split.
  - destruct (C9_closing_message_follows_count
                (world_with_outcomes true true true false false false)
                false eq_refl)
      as (tail & Hout & Hc & _ & Hw & Hr).
    rewrite world_with_outcomes_steps in *. cbn [count_successes Z.add] in *.
    exists tail. split; [exact Hout|]. split; [|split].
    + apply Hw. reflexivity.
    + apply Hr; [left; reflexivity | reflexivity].
    + intros H. apply Hc in H. discriminate H.
  - destruct (C9_closing_message_follows_count
                (world_with_outcomes true true true true true true)
                false eq_refl)
      as (tail & Hout & Hc & Hn & Hw & _).
    rewrite world_with_outcomes_steps in *. cbn [count_successes Z.add] in *.
    exists tail. split; [exact Hout|]. split; [|split].
    + apply Hc. reflexivity.
    + apply Hn; [left; reflexivity | reflexivity].
    + intros H. apply Hw in H. discriminate H.
Defined.

(** C10: of several lines with both the marker and the extension, the
    first in file order gives the path checked, whatever comes after it;
    the scan reads text only, so that line may as well be a YAML comment. *)
Theorem C10_first_path_line_wins w content pre line post :
  path_exists w profiles_file = Return true ->
  read_text w profiles_file = Return content ->
  split nl content = Some (pre ++ line :: post) ->
  (forall l, In l pre -> is_path_line l = false) ->
  is_path_line line = true ->
  db_paths_checked (output check_database_file w) = [path_of_line line].
Proof.
  intros H R Hs Hpre Hline.
  rewrite (check_database_file_read_paths _ _ H R).
  rewrite (configured_db_file_first _ _ _ Hs (find_first _ _ _ _ Hpre Hline)).
  reflexivity.
Qed.

(** C10 at work: a commented-out path line comes before the real one, and
    the commented-out path is the one checked. *)
Lemma C10_first_path_line_wins_witness :
  db_paths_checked
    (output check_database_file (world_with_profiles (Return profiles_commented)))
  = [path_of_line (u "  # path: old.duckdb")]
  /\ path_of_line (u "  # path: old.duckdb") = u "old.duckdb"
  /\ is_path_line (u "  path: new.duckdb") = true.
Proof.
  split; [|split; vm_compute; reflexivity].
  apply (C10_first_path_line_wins
           (world_with_profiles (Return profiles_commented)) profiles_commented
           [u "outputs:"] (u "  # path: old.duckdb") [u "  path: new.duckdb"]);
    try (vm_compute; reflexivity).
  intros l [<- | []]. vm_compute. reflexivity.
Defined.

(** ** Further properties of the script *)

(** *** The external-command steps *)

(** X1: [run_command] returns [True] exactly when the command ran and
    exited with status 0; it runs the command once, through the shell; on
    another exit status it prints the captured stderr and nothing of the
    captured stdout, and on status 0 it prints neither. *)
Theorem X1_run_command_follows_exit_status w command description :
  (succeeded (run_command command description) w = true <->
   exists r, run_process w (Shell command) = Return r /\ returncode r = 0%Z)
  /\ commands_run (output (run_command command description) w) = [Shell command]
  /\ (forall r, run_process w (Shell command) = Return r ->
        returncode r <> 0%Z ->
        printed (output (run_command command description) w) =
          [nl ++ u "🔄 " ++ description ++ u "...";
           u "❌ " ++ description ++ u " failed:"; stderr r])
  /\ (forall r, run_process w (Shell command) = Return r ->
        returncode r = 0%Z ->
        printed (output (run_command command description) w) =
          [nl ++ u "🔄 " ++ description ++ u "...";
           u "✅ " ++ description ++ u " completed successfully"]).
Proof.
  split; [|split; [apply run_command_commands|split]].
  - unfold succeeded, outcome. rewrite run_command_run.
    destruct (run_process w (Shell command)) as [r|e].
    + destruct (Z.eqb_spec (returncode r) 0) as [E|E]; simpl.
      * split; [|reflexivity]. intros _. exists r. split; [reflexivity|exact E].
      * split; [discriminate|]. intros (r' & [= <-] & H). contradiction.
    + simpl. split; [discriminate|]. intros (r & H & _). discriminate H.
  - intros r R Hrc. unfold output. rewrite run_command_run, R.
    destruct (Z.eqb_spec (returncode r) 0) as [E|E]; [contradiction|reflexivity].
  - intros r R Hrc. unfold output. rewrite run_command_run, R, Hrc. reflexivity.
Qed.

(** X1 at work: a [pip install] that exits with status 1. *)
Lemma X1_run_command_follows_exit_status_witness :
  printed (output pip_install (world_with_outcomes true false true true true true))
  = [nl ++ u "🔄 " ++ u "Installing Python dependencies" ++ u "...";
     u "❌ " ++ u "Installing Python dependencies" ++ u " failed:";
     u "ERROR: No matching distribution"].
Proof.
  destruct (X1_run_command_follows_exit_status
              (world_with_outcomes true false true true true true)
              (u "pip install -r requirements.txt")
              (u "Installing Python dependencies")) as (_ & _ & H & _).
  apply (H {| returncode := 1; stdout := [];
              stderr := u "ERROR: No matching distribution" |}).
  - vm_compute. reflexivity.
  - discriminate.
Defined.

(** *** The database check *)

(** X2: whenever the existence test of [.dbt/profiles.yml] answers,
    step 4 opens that file when and only when the answer is yes, asks
    [os.path.exists] about one path, and reports on that very path: found,
    and the step succeeds, or not found with the two hint lines, and the
    step fails. *)
Theorem X2_database_check_reports_the_path_checked w found :
  path_exists w (u ".dbt/profiles.yml") = Return found ->
  exists db,
    output check_database_file w =
      PathExists (u ".dbt/profiles.yml")
        :: (if found then [OpenRead (u ".dbt/profiles.yml")] else [])
        ++ OsPathExists db
        :: (if os_path_exists w db
            then [Print (u "✅ Database file found: " ++ db)]
            else [Print (u "⚠️  Database file not found: " ++ db);
                  Print (u "   Make sure to run the DLT extraction pipeline first!");
                  Print (u "   See: https://github.com/your-org/dlt-facebook-pages")])
    /\ outcome check_database_file w = Return (os_path_exists w db).
Proof.
  change (u ".dbt/profiles.yml") with profiles_file.
  intros H. unfold output, outcome.
  destruct (check_database_file_answered _ _ H) as [db ->]. exists db.
  split; reflexivity.
Qed.

(** X2 at work: the configuration file is there and names a database file
    that is there too. *)
Lemma X2_database_check_reports_the_path_checked_witness :
  exists db,
    output check_database_file (world_with_profiles (Return profiles_usual)) =
      [PathExists (u ".dbt/profiles.yml"); OpenRead (u ".dbt/profiles.yml");
       OsPathExists db; Print (u "✅ Database file found: " ++ db)]
    /\ outcome check_database_file (world_with_profiles (Return profiles_usual))
       = Return true.
Proof.
  destruct (X2_database_check_reports_the_path_checked
              (world_with_profiles (Return profiles_usual)) true eq_refl)
    as (db & Hout & Hres).
  exists db. split; [exact Hout|exact Hres].
Defined.

(** X3: the index in [line.split('path:')[1]] is always in range: a line
    that contains the marker splits into at least two pieces.  So the scan
    of the lines never raises and does nothing to the outside. *)
Theorem X3_scan_never_raises :
  (forall line, contains (u "path:") line = true ->
     exists parts part,
       split (u "path:") line = Some parts /\ nth_error parts 1 = Some part)
  /\ (forall lines db_file w,
        exists db, for_line_in lines db_file w = ([], Return db)).
Proof.
  split.
  - intros line Hc. change (u "path:") with path_marker in *.
    destruct (split_second path_marker line path_marker_nonempty Hc)
      as (parts & Hs & Hn).
    eauto.
  - intros lines db_file w. rewrite for_line_in_run. eauto.
Qed.

(** X3 at work on a usual path line. *)
Lemma X3_scan_never_raises_witness :
  exists parts part,
    split (u "path:") (u "      path: 'data/facebook.duckdb'") = Some parts
    /\ nth_error parts 1 = Some part.
Proof.
  destruct X3_scan_never_raises as [H _].
  apply (H (u "      path: 'data/facebook.duckdb'")).
  vm_compute. reflexivity.
Defined.

(** *** Stripping *)

Lemma lstrip_by_app f a m :
  forallb f a = true -> lstrip_by f (a ++ m) = lstrip_by f m.
Proof.
  induction a as [|c a IH]; simpl; [reflexivity|].
  intros H. apply andb_prop in H as [Hc Ha]. rewrite Hc. apply IH, Ha.
Qed.

Lemma forallb_rev {A} (f : A -> bool) l :
  forallb f l = true -> forallb f (List.rev l) = true.
Proof.
  rewrite !forallb_forall. intros H x Hx. apply H, in_rev, Hx.
Qed.

(** Stripping a text that is wrapped in strippable characters, and that
    begins and ends with a character that is not, gives the text. *)
Lemma strip_by_wrapped f a m b :
  forallb f a = true -> forallb f b = true -> ends_clean f m = true ->
  strip_by f (a ++ m ++ b) = m.
Proof.
  intros Ha Hb Hm. unfold ends_clean in Hm.
  destruct m as [|x m0]; [discriminate|]. cbn [hd_error] in Hm.
  destruct (List.rev (x :: m0)) as [|y r0] eqn:Hrev; [discriminate|].
  cbn [hd_error] in Hm. apply andb_prop in Hm as [Hx Hy].
  apply negb_true_iff in Hx, Hy.
  unfold strip_by, rstrip_by. rewrite (lstrip_by_app _ _ _ Ha).
  cbn [app lstrip_by]. rewrite Hx.
  change (x :: m0 ++ b) with ((x :: m0) ++ b). rewrite rev_app_distr.
  rewrite (lstrip_by_app _ _ _ (forallb_rev _ _ Hb)), Hrev.
  cbn [lstrip_by]. rewrite Hy, <- Hrev. apply rev_involutive.
Qed.

Lemma lstrip_by_starts f s : starts_with f (lstrip_by f s) = false.
Proof.
  induction s as [|c s IH]; [reflexivity|]. cbn [lstrip_by].
  destruct (f c) eqn:E; [exact IH|]. exact E.
Qed.

Lemma lstrip_by_suffix f s : exists a, s = a ++ lstrip_by f s.
Proof.
  induction s as [|c s [a IH]]; [exists []; reflexivity|]. cbn [lstrip_by].
  destruct (f c).
  - exists (c :: a). simpl. f_equal. exact IH.
  - exists []. reflexivity.
Qed.

(** A stripped text neither begins nor ends with a stripped character. *)
Lemma strip_by_ends f s :
  starts_with f (strip_by f s) = false
  /\ starts_with f (List.rev (strip_by f s)) = false.
Proof.
  unfold strip_by, rstrip_by. split.
  - destruct (lstrip_by_suffix f (List.rev (lstrip_by f s))) as [a Ha].
    apply (f_equal (@List.rev N)) in Ha.
    rewrite rev_involutive, rev_app_distr in Ha.
    pose proof (lstrip_by_starts f s) as Hs. rewrite Ha in Hs.
    destruct (List.rev (lstrip_by f (List.rev (lstrip_by f s)))); [reflexivity|].
    exact Hs.
  - rewrite rev_involutive. apply lstrip_by_starts.
Qed.

Lemma path_marker_chars : path_marker = [112; 97; 116; 104; 58]%N.
Proof. vm_compute. reflexivity. Qed.

Lemma find_here sub s : startswith sub s = true -> find sub s = Some 0.
Proof. intros H. destruct s; simpl; rewrite H; reflexivity. Qed.

(** Behind white space, the first marker of a line is the one at the end
    of the white space. *)
Lemma find_marker_after_spaces indent rest :
  forallb isspace indent = true ->
  find path_marker (indent ++ path_marker ++ rest) = Some (List.length indent).
Proof.
  intros H. induction indent as [|c indent IH].
  - cbn [app List.length]. apply find_here, startswith_app.
  - cbn [forallb] in H. apply andb_prop in H as [Hc Hi].
    cbn [app find List.length].
    assert (E : startswith path_marker (c :: indent ++ path_marker ++ rest) = false).
    { rewrite path_marker_chars. cbn [startswith].
      destruct (N.eqb_spec 112 c) as [<- | _]; [discriminate Hc|reflexivity]. }
    rewrite E, (IH Hi). reflexivity.
Qed.

Lemma skipn_length_app {A} (a l : list A) n :
  skipn (List.length a + n) (a ++ l) = skipn n l.
Proof. induction a as [|x a IH]; [reflexivity|exact IH]. Qed.

(** X4: a path written in the usual way is recovered as it stands.  When
    the first path line of the configuration file is white space, the
    marker, white space, quote marks, a text, quote marks, white space,
    where the text neither begins nor ends with a quote mark, the quoted
    text has no outer white space, and no other marker follows, then the
    path checked is the text. *)
Theorem X4_quoted_path_is_recovered
    w content lines indent ws1 q1 p q2 ws2 :
  path_exists w profiles_file = Return true ->
  read_text w profiles_file = Return content ->
  split nl content = Some lines ->
  List.find is_path_line lines
  = Some (indent ++ u "path:" ++ ws1 ++ (q1 ++ p ++ q2) ++ ws2) ->
  forallb isspace indent = true ->
  forallb isspace ws1 = true -> forallb isspace ws2 = true ->
  forallb is_quote q1 = true -> forallb is_quote q2 = true ->
  ends_clean is_quote p = true ->
  ends_clean isspace (q1 ++ p ++ q2) = true ->
  contains (u "path:") (ws1 ++ (q1 ++ p ++ q2) ++ ws2) = false ->
  db_paths_checked (output check_database_file w) = [p].
Proof.
  change (u "path:") with path_marker.
  intros H R Hs Hf Hindent Hws1 Hws2 Hq1 Hq2 Hp Hq Hrest.
  rewrite (check_database_file_read_paths _ _ H R).
  rewrite (configured_db_file_first _ _ _ Hs Hf).
  unfold path_of_line, after_marker.
  rewrite (find_marker_after_spaces _ _ Hindent).
  assert (E : skipn (List.length indent + List.length path_marker)
                (indent ++ path_marker ++ ws1 ++ (q1 ++ p ++ q2) ++ ws2)
              = ws1 ++ (q1 ++ p ++ q2) ++ ws2).
  { rewrite skipn_length_app.
    rewrite <- (Nat.add_0_r (List.length path_marker)), skipn_length_app.
    reflexivity. }
  rewrite E. unfold upto_marker. unfold contains in Hrest.
  destruct (find path_marker (ws1 ++ (q1 ++ p ++ q2) ++ ws2)); [discriminate|].
  unfold unquote, strip. rewrite (strip_by_wrapped _ _ _ _ Hws1 Hws2 Hq).
  unfold strip_chars. f_equal.
  exact (strip_by_wrapped is_quote _ _ _ Hq1 Hq2 Hp).
Qed.

(** X4 at work on a usual [profiles.yml]. *)
Lemma X4_quoted_path_is_recovered_witness :
  db_paths_checked
    (output check_database_file (world_with_profiles (Return profiles_usual)))
  = [u "data/facebook.duckdb"].
Proof.
  apply (X4_quoted_path_is_recovered
           (world_with_profiles (Return profiles_usual)) profiles_usual
           [u "facebook_pages:"; u "  target: dev"; u "  outputs:"; u "    dev:";
            u "      type: duckdb"; u "      path: 'data/facebook.duckdb'"; []]
           (u "      ") (u " ") [39%N] (u "data/facebook.duckdb") [39%N] []);
    vm_compute; reflexivity.
Defined.

Lemma default_db_file_ends :
  starts_with is_quote default_db_file = false
  /\ starts_with is_quote (List.rev default_db_file) = false.
Proof. split; vm_compute; reflexivity. Qed.

Lemma configured_db_file_ends content :
  starts_with is_quote (configured_db_file content) = false
  /\ starts_with is_quote (List.rev (configured_db_file content)) = false.
Proof.
  unfold configured_db_file.
  destruct (split nl content) as [lines|]; [|apply default_db_file_ends].
  destruct (List.find is_path_line lines) as [line|];
    [|apply default_db_file_ends].
  unfold path_of_line, unquote, strip_chars.
  exact (strip_by_ends is_quote _).
Qed.

(** X5: whatever the configuration file holds, a path step 4 checks
    neither begins nor ends with a quote mark; and step 4 checks one path
    whenever the existence test of the configuration file answers. *)
Theorem X5_checked_path_has_no_outer_quote w :
  (forall db, In db (db_paths_checked (output check_database_file w)) ->
     starts_with is_quote db = false
     /\ starts_with is_quote (List.rev db) = false)
  /\ (forall found, path_exists w profiles_file = Return found ->
        exists db, db_paths_checked (output check_database_file w) = [db]).
Proof.
  split; [|apply check_database_file_paths].
  intros db. unfold output.
  destruct (path_exists w profiles_file) as [[|]|e] eqn:H.
  - destruct (read_text w profiles_file) as [content|e] eqn:R.
    + fold (output check_database_file w).
      rewrite (check_database_file_read_paths _ _ H R).
      intros [<- | []]. apply configured_db_file_ends.
    + rewrite (check_database_file_unreadable _ _ H R).
      cbn [fst db_paths_checked flat_map app].
      fold (db_paths_checked (db_report default_db_file
              (os_path_exists w default_db_file))).
      rewrite db_paths_checked_report.
      intros [<- | []]. apply default_db_file_ends.
  - rewrite (check_database_file_absent _ H).
    cbn [fst db_paths_checked flat_map app].
    fold (db_paths_checked (db_report default_db_file
            (os_path_exists w default_db_file))).
    rewrite db_paths_checked_report.
    intros [<- | []]. apply default_db_file_ends.
  - rewrite (check_database_file_raises _ _ H). intros [].
Qed.

(** X5 at work: the quoted path of a usual [profiles.yml] is checked
    without its quote marks. *)
Lemma X5_checked_path_has_no_outer_quote_witness :
  starts_with is_quote (u "data/facebook.duckdb") = false
  /\ starts_with is_quote (List.rev (u "data/facebook.duckdb")) = false.
Proof.
  destruct (X5_checked_path_has_no_outer_quote
              (world_with_profiles (Return profiles_usual))) as [H _].
  apply H. vm_compute. left. reflexivity.
Defined.

(** *** Splitting *)

Lemma split_nonempty_nonnil c sep' s : split_nonempty c sep' s <> [].
Proof.
  intros H. rewrite split_nonempty_unfold in H.
  destruct (find (c :: sep') s); discriminate H.
Qed.

Lemma join_cons sep p rest :
  rest <> [] -> join sep (p :: rest) = p ++ sep ++ join sep rest.
Proof. destruct rest; [congruence|reflexivity]. Qed.

Lemma split_nonempty_join c sep' s :
  join (c :: sep') (split_nonempty c sep' s) = s.
Proof.
  remember (List.length s) as n eqn:Hn. revert s Hn.
  induction n as [n IH] using lt_wf_ind. intros s Hn.
  rewrite split_nonempty_unfold.
  destruct (find (c :: sep') s) as [i|] eqn:F; [|reflexivity].
  pose proof (find_bound _ _ _ F) as Hb. simpl in Hb.
  apply find_Some in F as [Hs _].
  rewrite (join_cons _ _ _ (split_nonempty_nonnil _ _ _)).
  rewrite (IH (List.length (skipn (i + List.length (c :: sep')) s)));
    [symmetry; exact Hs | rewrite length_skipn; simpl; lia | reflexivity].
Qed.

Lemma firstn_no_occurrence sub s i :
  sub <> [] -> find sub s = Some i -> contains sub (firstn i s) = false.
Proof.
  intros Hne F. destruct (contains sub (firstn i s)) eqn:C; [|reflexivity].
  exfalso. apply contains_iff in C as (a & b & Hab).
  pose proof (find_bound _ _ _ F) as Hb.
  apply find_Some in F as [Hs Hfirst].
  assert (Hlen : List.length (firstn i s) = i) by (apply firstn_length_le; lia).
  rewrite Hab, !length_app in Hlen.
  assert (Hsub : 0 < List.length sub) by (destruct sub; [congruence|simpl; lia]).
  specialize (Hfirst (List.length a) ltac:(lia)).
  rewrite Hs, Hab in Hfirst. rewrite <- !app_assoc in Hfirst.
  rewrite <- (Nat.add_0_r (List.length a)), skipn_length_app in Hfirst.
  cbn [skipn] in Hfirst. rewrite startswith_app in Hfirst. discriminate.
Qed.

Lemma split_nonempty_no_sep c sep' s p :
  In p (split_nonempty c sep' s) -> contains (c :: sep') p = false.
Proof.
  remember (List.length s) as n eqn:Hn. revert s Hn p.
  induction n as [n IH] using lt_wf_ind. intros s Hn p.
  rewrite split_nonempty_unfold.
  destruct (find (c :: sep') s) as [i|] eqn:F.
  - pose proof (find_bound _ _ _ F) as Hb. simpl in Hb.
    intros [<- | Hin].
    + apply firstn_no_occurrence; [discriminate|exact F].
    + apply (IH (List.length (skipn (i + List.length (c :: sep')) s)))
        with (s := skipn (i + List.length (c :: sep')) s);
        [rewrite length_skipn; simpl; lia|reflexivity|exact Hin].
  - intros [<- | []]. unfold contains. rewrite F. reflexivity.
Qed.

(** X6: splitting loses nothing and cuts at every separator: the pieces
    joined by the separator give the text back, no piece contains the
    separator, and there is at least one piece.  So the lines scanned are
    the lines of the file, and none holds a line break. *)
Theorem X6_split_pieces sep s parts :
  split sep s = Some parts ->
  join sep parts = s
  /\ parts <> []
  /\ (forall p, In p parts -> contains sep p = false).
Proof.
  destruct sep as [|c sep']; [discriminate|]. intros [= <-].
  split; [apply split_nonempty_join|].
  split; [apply split_nonempty_nonnil|].
  intros p. apply split_nonempty_no_sep.
Qed.

(** X6 at work on a usual [profiles.yml]. *)
Lemma X6_split_pieces_witness :
  join nl [u "facebook_pages:"; u "  target: dev"; u "  outputs:"; u "    dev:";
           u "      type: duckdb"; u "      path: 'data/facebook.duckdb'"; []]
  = profiles_usual.
Proof.
  apply (X6_split_pieces nl profiles_usual). vm_compute. reflexivity.
Defined.

(** *** The run as a whole *)

Lemma count_failures l :
  (count_successes l + Z.of_nat (count_occ bool_dec l false)
   = Z.of_nat (List.length l))%Z.
Proof.
  induction l as [|b l IH]; [reflexivity|].
  cbn [count_successes List.length]. destruct b; simpl count_occ; lia.
Qed.

(** X7: when some step fails, a run that comes to its summary (the
    existence test of step 4 gives an answer) prints the warning line, and
    the number in it is the number of steps that failed. *)
Theorem X7_warning_counts_failed_steps w found :
  path_exists w profiles_file = Return found ->
  In false (step_outcomes w) ->
  In (Print (nl ++ u "⚠️  Setup completed with "
             ++ str_of_int (Z.of_nat (count_occ bool_dec (step_outcomes w) false))
             ++ u " warnings/errors"))
     (output main w).
Proof.
  intros Hfound Hfail. unfold output. rewrite (main_run _ _ Hfound). cbn [fst].
  apply (count_occ_In bool_dec) in Hfail.
  pose proof (count_failures (step_outcomes w)) as Hc.
  change (List.length (step_outcomes w)) with 6%nat in Hc.
  assert (Hk : (Z.of_nat (count_occ bool_dec (step_outcomes w) false)
                = 6 - count_successes (step_outcomes w))%Z) by lia.
  rewrite Hk.
  apply in_or_app. right. apply in_or_app. right. apply in_or_app. right.
  right. unfold closing_events.
  destruct (Z.eqb_spec (count_successes (step_outcomes w)) 6) as [E|_]; [lia|].
  left. reflexivity.
Qed.

(** X7 at work: three of the six steps fail. *)
Lemma X7_warning_counts_failed_steps_witness :
  In (Print (nl ++ u "⚠️  Setup completed with "
             ++ str_of_int
                  (Z.of_nat
                     (count_occ bool_dec
                        (step_outcomes
                           (world_with_outcomes true true true false false false))
                        false))
             ++ u " warnings/errors"))
     (output main (world_with_outcomes true true true false false false))
  /\ count_occ bool_dec
       (step_outcomes (world_with_outcomes true true true false false false))
       false = 3.
Proof.
  split; [|vm_compute; reflexivity].
  apply (X7_warning_counts_failed_steps
           (world_with_outcomes true true true false false false) false eq_refl).
  rewrite world_with_outcomes_steps. simpl. tauto.
Defined.

Lemma fs_events_app t1 t2 : fs_events (t1 ++ t2) = fs_events t1 ++ fs_events t2.
Proof. apply filter_app. Qed.

Lemma fs_events_closing n : fs_events (closing_events n) = [].
Proof.
  unfold closing_events.
  destruct (n =? 6)%Z; [reflexivity|].
  destruct (n <? 4)%Z; reflexivity.
Qed.

Lemma run_command_fs command description w :
  fs_events (output (run_command command description) w) = [].
Proof.
  unfold output. rewrite run_command_run.
  destruct (run_process w (Shell command)) as [r|e]; simpl;
    [destruct (returncode r =? 0)%Z|]; reflexivity.
Qed.

Lemma check_dbt_connection_fs w :
  fs_events (output check_dbt_connection w) = [].
Proof.
  unfold output. rewrite check_dbt_connection_run.
  destruct (run_process w (Argv [u "dbt"; u "debug"])) as [r|e].
  - destruct (contains (u "All checks passed!") (stdout r)); reflexivity.
  - destruct (issubclass (exn_cls e) FileNotFoundError); reflexivity.
Qed.

Lemma check_database_file_fs w :
  exists db,
    fs_events (output check_database_file w) =
      PathExists profiles_file
        :: match path_exists w profiles_file with
           | Return true => [OpenRead profiles_file; OsPathExists db]
           | Return false => [OsPathExists db]
           | Raise _ => []
           end.
Proof.
  unfold output.
  destruct (path_exists w profiles_file) as [found|e] eqn:H.
  - destruct (check_database_file_answered _ _ H) as [db ->]. exists db.
    cbn [fst]. destruct found, (os_path_exists w db); reflexivity.
  - exists []. rewrite (check_database_file_raises _ _ H). reflexivity.
Qed.

(** X8: all a run does to the filesystem is step 4's.  It asks whether
    [.dbt/profiles.yml] exists; when that raises it touches nothing more;
    otherwise it reads that file when and only when it exists, and asks
    [os.path.exists] about one path.  It opens no other file. *)
Theorem X8_filesystem_footprint w :
  exists db,
    fs_events (output main w) =
      PathExists (u ".dbt/profiles.yml")
        :: match path_exists w (u ".dbt/profiles.yml") with
           | Return true =>
               [OpenRead (u ".dbt/profiles.yml"); OsPathExists db]
           | Return false => [OsPathExists db]
           | Raise _ => []
           end.
Proof.
  change (u ".dbt/profiles.yml") with profiles_file.
  destruct (check_database_file_fs w) as [db Hdb]. exists db.
  destruct (path_exists w profiles_file) as [found|e] eqn:Hfound.
  - unfold output. rewrite (main_run _ _ Hfound). cbn [fst].
    unfold steps_events, banner. cbn [flat_map step_events step1_events].
    change (Print ?s :: closing_events ?n) with ([Print s] ++ closing_events n).
    rewrite !fs_events_app.
    unfold pip_install, dbt_deps, dbt_compile.
    rewrite !run_command_fs, check_dbt_connection_fs, fs_events_closing, Hdb.
    unfold step1_events, header. cbn [fs_events filter app].
    rewrite !app_nil_r. reflexivity.
  - unfold output. rewrite (main_run_raises _ _ Hfound). cbn [fst].
    unfold banner. cbn [step_events step1_events].
    rewrite !fs_events_app.
    unfold pip_install, dbt_deps.
    rewrite !run_command_fs.
    unfold step1_events, header. cbn [fs_events filter app]. reflexivity.
Qed.

Lemma tuple_ge_trans a b c :
  tuple_ge a b = true -> tuple_ge b c = true -> tuple_ge a c = true.
Proof.
  revert a b. induction c as [|z c IH]; intros a b Hab Hbc.
  - destruct a; reflexivity.
  - destruct b as [|y b]; [discriminate Hbc|].
    destruct a as [|x a]; [discriminate Hab|].
    cbn [tuple_ge] in *.
    destruct (Z.eqb_spec x y) as [Exy|Nxy], (Z.eqb_spec y z) as [Eyz|Nyz],
      (Z.eqb_spec x z) as [Exz|Nxz];
      try apply Z.ltb_lt in Hab; try apply Z.ltb_lt in Hbc;
      try (apply Z.ltb_lt; lia); try lia.
    exact (IH _ _ Hab Hbc).
Qed.

(** X9: the version test is monotone: an interpreter whose version is at
    least that of an accepted one is accepted too. *)
Theorem X9_newer_interpreter_is_accepted w1 w2 :
  version_ok w1 = true ->
  tuple_ge (version_tuple (sys_version_info w2))
           (version_tuple (sys_version_info w1)) = true ->
  version_ok w2 = true.
Proof.
  unfold version_ok. intros H1 H21. exact (tuple_ge_trans _ _ _ H21 H1).
Qed.

(** X9 at work: 3.8.0 is accepted, so 3.12.1 is. *)
Lemma X9_newer_interpreter_is_accepted_witness :
  version_ok
    (world_with_version
       {| major := 3; minor := 12; micro := 1;
          releaselevel := u "final"; serial := 0 |}) = true.
Proof.
  apply (X9_newer_interpreter_is_accepted
           (world_with_version
              {| major := 3; minor := 8; micro := 0;
                 releaselevel := u "final"; serial := 0 |}));
    reflexivity.
Defined.
